(** * AirGradient_Grafana.ino: a shallow embedding of the sketch

    The sketch reads up to four sensors, shows each reading on an SSD1306
    OLED, collects the readings in one InfluxDB point and writes that point
    once per cycle.  This development embeds

    - [PM_TO_AQI_US] (lines 215-224), over IEEE 754 binary64 as the C
      compiler evaluates it;
    - [showTextRectangle] (186-197), [connectToWifi] (200-212), [setup]
      (73-114) and [loop] (116-183), as programs of a small monad that
      threads the InfluxDB point, logs every call to a library or to the
      hardware, and stops at [ESP.restart()] and at [while(true) {}];

    and proves the properties of the sketch that its specification states. *)

From Stdlib Require Import ZArith QArith Lia DecimalString.
From Stdlib Require Import Floats.
From stdpp Require Import base gmap strings list.

Set Warnings "-inexact-float".

Open Scope Z_scope.

(** ** C numbers *)

(** [int] is 32 bits wide on the ESP8266. *)
Definition INT_MAX : Z := 2147483647.
Definition INT_MIN : Z := -2147483648.

(** IEEE 754 binary formats, round to nearest even, on the standard
    library's specification of floating-point numbers.  [prec] is the width
    of the significand and [emax] the exponent of the infinities. *)
Section Ieee.
Variables prec emax : Z.

  (** Conversion of an integer (exact whenever it has at most [prec] bits). *)
Definition ieee_of_int (i : Z) : spec_float :=
    binary_normalize prec emax i 0 false.

  (** A decimal literal [num/den] with [num] and [den] exact: the nearest
      value of the format, which is what one correctly rounded division
      gives. *)
Definition ieee_lit (num den : Z) : spec_float :=
    SFdiv prec emax (ieee_of_int num) (ieee_of_int den).
End Ieee.

(** Conversion to [int] discards the fractional part (C11 6.3.1.4).  The
    conversion of a NaN, of an infinity or of a value outside [int] is
    undefined in C; here it yields the unbounded integer, and [0] for NaN
    and infinities. *)
Definition ieee_to_int (x : spec_float) : Z :=
  match x with
  | S754_finite s m e =>
      let a := match e with
               | Z0 => Zpos m
               | Zpos k => Zpos m * 2 ^ Zpos k
               | Zneg k => Zpos m / 2 ^ Zpos k
               end in
      if s then - a else a
  | _ => 0
  end.

(** C's [double] is binary64. *)
Definition double_of_int : Z -> spec_float := ieee_of_int 53 1024.
Definition double_lit : Z -> Z -> spec_float := ieee_lit 53 1024.
Definition double_to_int : spec_float -> Z := ieee_to_int.
Definition double_add : spec_float -> spec_float -> spec_float := SFadd 53 1024.
Definition double_sub : spec_float -> spec_float -> spec_float := SFsub 53 1024.
Definition double_mul : spec_float -> spec_float -> spec_float := SFmul 53 1024.
Definition double_div : spec_float -> spec_float -> spec_float := SFdiv 53 1024.
Definition double_leb : spec_float -> spec_float -> bool := SFleb.

(** C's [float] is binary32. *)
Definition float_of_int : Z -> spec_float := ieee_of_int 24 128.
Definition float_add : spec_float -> spec_float -> spec_float := SFadd 24 128.
Definition float_mul : spec_float -> spec_float -> spec_float := SFmul 24 128.
Definition float_div : spec_float -> spec_float -> spec_float := SFdiv 24 128.

(** Decimal constants of type [double], written as in the sketch. *)
Definition double_of_number (n : Number.number) : option spec_float :=
  match n with
  | Number.Decimal (Decimal.Decimal i f) =>
      Some (double_lit (Z.of_int (Decimal.app_int i f))
                       (10 ^ Z.of_nat (Decimal.nb_digits f)))
  | _ => None
  end.

Definition number_of_double (x : spec_float) : option Number.number := None.

Declare Scope double_scope.
Delimit Scope double_scope with double.
Number Notation spec_float double_of_number number_of_double : double_scope.
Infix "+" := double_add : double_scope.
Infix "-" := double_sub : double_scope.
Infix "*" := double_mul : double_scope.
Infix "/" := double_div : double_scope.
Infix "<=?" := double_leb : double_scope.

Declare Scope single_scope.
Delimit Scope single_scope with single.
Infix "+" := float_add : single_scope.
Infix "*" := float_mul : single_scope.
Infix "/" := float_div : single_scope.

(** ** Unit conversion: [PM_TO_AQI_US], lines 215-224

    [pm02] is an [int]; every comparison and every operation promotes it
    and the integer constants to [double] (written [int] below), and
    [return] converts the [double] back to [int].  [PM_TO_AQI_US_double] is
    the body on the promoted argument. *)
Definition PM_TO_AQI_US_double (pm02 : spec_float) : Z :=
  let int := double_of_int in
  (if pm02 <=? 12.0 then
     double_to_int (int (50 - 0)%Z / (12.0 - 0.0) * (pm02 - 0.0) + int 0%Z)
   else if pm02 <=? 35.4 then
     double_to_int (int (100 - 50)%Z / (35.4 - 12.0) * (pm02 - 12.0) + int 50%Z)
   else if pm02 <=? 55.4 then
     double_to_int (int (150 - 100)%Z / (55.4 - 35.4) * (pm02 - 35.4) + int 100%Z)
   else if pm02 <=? 150.4 then
     double_to_int (int (200 - 150)%Z / (150.4 - 55.4) * (pm02 - 55.4) + int 150%Z)
   else if pm02 <=? 250.4 then
     double_to_int (int (300 - 200)%Z / (250.4 - 150.4) * (pm02 - 150.4) + int 200%Z)
   else if pm02 <=? 350.4 then
     double_to_int (int (400 - 300)%Z / (350.4 - 250.4) * (pm02 - 250.4) + int 300%Z)
   else if pm02 <=? 500.4 then
     double_to_int (int (500 - 400)%Z / (500.4 - 350.4) * (pm02 - 350.4) + int 400%Z)
   else 500%Z)%double.

Definition PM_TO_AQI_US (pm02 : Z) : Z :=
  PM_TO_AQI_US_double (double_of_int pm02).


(** ** Arduino strings

    [String(float)], [String(n, HEX)] and [Point::toLineProtocol()] belong
    to the Arduino core and to the InfluxDB client; the sketch only passes
    their results on, and they are parameters of the embedding
    ([String_float], [String_hex], [toLineProtocol] below). *)

(** Modelled from the spec: [String(int)] of the Arduino core (WString.h,
    not under src/) is the decimal numeral of its argument, as section 8
    has it for the reading -1. *)
Definition String_int (i : Z) : string := NilZero.string_of_int (Z.to_int i).

(** ** The InfluxDB point *)

(** Modelled from the spec: the class [Point] of the InfluxDB client
    (InfluxDbClient.h, not under src/), which section 4.4 describes as a
    measurement name with a mapping from field names to numeric values;
    [clearFields] empties the mapping and keeps the name, [addField]
    inserts or overwrites one field. *)
Inductive FieldValue : Type :=
| IntField (i : Z)
| FloatField (f : spec_float).

Record Point : Type := {
  measurement : string;
  fields : gmap string FieldValue
}.

Definition clearFields (p : Point) : Point :=
  {| measurement := measurement p; fields := ∅ |}.

Definition addField (name : string) (v : FieldValue) (p : Point) : Point :=
  {| measurement := measurement p; fields := <[name := v]> (fields p) |}.

(** Line 50: [Point influxPoint("airgradient")]. *)
Definition influxPoint : Point :=
  {| measurement := "airgradient"; fields := ∅ |}.

(** ** Parameters of the sketch, lines 52-71 *)
Record Config : Type := {
  hasPM : bool;
  hasCO2 : bool;
  hasSHT : bool;
  hasTVOC : bool;
  inUSaqi : bool;
  inF : bool;
  tempOffsetC : spec_float;
  connectWIFI : bool;
  displayData : bool
}.

(** The values the sketch is shipped with. *)
Definition shipped : Config :=
  {| hasPM := true; hasCO2 := true; hasSHT := true; hasTVOC := true;
     inUSaqi := false; inF := true; tempOffsetC := float_of_int 0;
     connectWIFI := true; displayData := false |}.

Definition TZ_INFO : string := "PST8PDT".

(** ** What the hardware and the libraries answer *)

(** Modelled from the spec: [TMP_RH] is declared by the AirGradient library
    (AirGradient.h, not under src/); section 3 gives a reading as
    [{temperatureC: float, relativeHumidity: float}]. *)
Record TMP_RH : Type := {
  t : spec_float;
  rh : spec_float
}.

(** The answers during one call of [loop()]. *)
Record Readings : Type := {
  getPM2_Raw : Z;
  getCO2_Raw : Z;
  periodicFetchData : TMP_RH;
  getTVOC : Z;
  writePoint : bool;
  write_error : string
}.

(** The answers during [setup()]. *)
Record Boot : Type := {
  getChipId : Z;
  isConnected : bool;
  measureTest : bool;
  lastError : Z;
  autoConnect : bool;
  validateConnection : bool;
  getServerUrl : string;
  getLastErrorMessage : string
}.

(** ** The calls the sketch makes *)
Inductive Font : Type := ArialMT_Plain_10 | ArialMT_Plain_16 | ArialMT_Plain_24.

Inductive DisplayCall : Type :=
| Dinit
| DflipScreenVertically
| DdisplayOff
| Dclear
| DsetTextAlignmentLeft
| DsetFont (f : Font)
| DdrawString (x y : Z) (text : string)
| Ddisplay.

Inductive Event : Type :=
| SerialBegin (baud : Z)
| SerialPrint (s : string)
| SerialPrintln (s : string)
| Display (c : DisplayCall)
| SgpIsConnected
| SgpBegin
| SgpMeasureTest
| SgpMeasure (all : bool)
| SgpGetTVOC
| PmsInit
| Co2Init
| TmpRhInit (address : Z)
| GetPM2Raw
| GetCO2Raw
| PeriodicFetchData
| Delay (ms : Z)
| WifiSetTimeout (seconds : Z)
| WifiAutoConnect (apName : string)
| EspRestart
| TimeSync (tz ntp1 ntp2 : string)
| ValidateConnection
| WritePoint (p : Point).

(** ** The monad of the sketch

    A computation starts from the current value of the global
    [influxPoint] and gives the new value, the calls it made, in order, and
    how it ended: it returns, or the chip restarts ([ESP.restart()], after
    which nothing of this execution runs), or it spins in [while(true) {}]
    for ever. *)
Inductive Outcome (A : Type) : Type :=
| Returns (a : A)
| Restarts
| Spins.
Arguments Returns {A} a.
Arguments Restarts {A}.
Arguments Spins {A}.

Record Run (A : Type) : Type := {
  outcome : Outcome A;
  point : Point;
  calls : list Event
}.
Arguments outcome {A} r.
Arguments point {A} r.
Arguments calls {A} r.

Definition M (A : Type) : Type := Point -> Run A.

#[global] Instance M_ret : MRet M := λ A a p,
  {| outcome := Returns a; point := p; calls := [] |}.

#[global] Instance M_bind : MBind M := λ A B f m p,
  let r := m p in
  match outcome r with
  | Returns a =>
      let r' := f a (point r) in
      {| outcome := outcome r'; point := point r'; calls := calls r ++ calls r' |}
  | Restarts => {| outcome := Restarts; point := point r; calls := calls r |}
  | Spins => {| outcome := Spins; point := point r; calls := calls r |}
  end.

Definition call (e : Event) : M unit := λ p,
  {| outcome := Returns tt; point := p; calls := [e] |}.

Definition answer {A : Type} (e : Event) (a : A) : M A := λ p,
  {| outcome := Returns a; point := p; calls := [e] |}.

(** [if (c) body] *)
Definition when (c : bool) (body : M unit) : M unit :=
  if c then body else mret tt.

(** [while(true) {}] *)
Definition while_true : M unit := λ p,
  {| outcome := Spins; point := p; calls := [] |}.

(** [ESP.restart()] *)
Definition ESP_restart : M unit := λ p,
  {| outcome := Restarts; point := p; calls := [EspRestart] |}.

Definition delay (ms : Z) : M unit := call (Delay ms).
Definition Serial_print (s : string) : M unit := call (SerialPrint s).
Definition Serial_println (s : string) : M unit := call (SerialPrintln s).

Definition influxPoint_clearFields : M unit := λ p,
  {| outcome := Returns tt; point := clearFields p; calls := [] |}.

Definition influxPoint_addField (name : string) (v : FieldValue) : M unit := λ p,
  {| outcome := Returns tt; point := addField name v p; calls := [] |}.

Definition influxPoint_get : M Point := λ p,
  {| outcome := Returns p; point := p; calls := [] |}.

(** ** What a cycle leaves behind *)

(** The fields each stage of [loop()] adds to those it finds, and the
    fields of the point after the whole cycle, which starts from none. *)
Definition pm_fields (cfg : Config) (r : Readings) (m : gmap string FieldValue)
  : gmap string FieldValue :=
  if hasPM cfg then
    <["aqi" := IntField (PM_TO_AQI_US (getPM2_Raw r))]>
      (<["pm2" := IntField (getPM2_Raw r)]> m)
  else m.

Definition co2_fields (cfg : Config) (r : Readings) (m : gmap string FieldValue)
  : gmap string FieldValue :=
  if hasCO2 cfg && (getCO2_Raw r >? 0) then
    <["co2" := IntField (getCO2_Raw r)]> m
  else m.

Definition sht_fields (cfg : Config) (r : Readings) (m : gmap string FieldValue)
  : gmap string FieldValue :=
  if hasSHT cfg then
    <["rhum" := FloatField (rh (periodicFetchData r))]>
      (<["temp" := FloatField (t (periodicFetchData r) + tempOffsetC cfg)%single]> m)
  else m.

Definition tvoc_fields (cfg : Config) (r : Readings) (m : gmap string FieldValue)
  : gmap string FieldValue :=
  if hasTVOC cfg then <["tvoc" := IntField (getTVOC r)]> m else m.

Definition cycle_fields (cfg : Config) (r : Readings) : gmap string FieldValue :=
  tvoc_fields cfg r (sht_fields cfg r (co2_fields cfg r (pm_fields cfg r ∅))).

Definition is_restart (e : Event) : bool :=
  match e with EspRestart => true | _ => false end.

Definition is_writePoint (e : Event) : bool :=
  match e with WritePoint _ => true | _ => false end.

Definition is_sleep (e : Event) : bool :=
  match e with Delay 48000 => true | _ => false end.

(** A call that only [loop()] makes: reading a sensor or writing the
    point. *)
Definition is_sampling (e : Event) : bool :=
  match e with
  | GetPM2Raw | GetCO2Raw | PeriodicFetchData | SgpGetTVOC | SgpMeasure _
  | WritePoint _ => true
  | _ => false
  end.

(** ** The OLED *)

(** Modelled from the spec: the display driver (SSD1306Wire.h, not under
    src/), which section 6 gives as [init()], [powerOff()], [clear()],
    [setFont(size)], [drawText(x,y,text)] and [flush()].  Drawing goes to a
    buffer, [display()] copies the buffer to the panel, and the panel shows
    its content while it is powered. *)
Record Glyphs : Type := {
  at_x : Z;
  at_y : Z;
  in_font : Font;
  text : string
}.

Record Oled : Type := {
  powered : bool;
  font : Font;
  buffer : list Glyphs;
  panel : list Glyphs
}.

Definition oled_call (d : Oled) (c : DisplayCall) : Oled :=
  match c with
  | Dinit =>
      {| powered := true; font := ArialMT_Plain_10; buffer := []; panel := [] |}
  | DflipScreenVertically | DsetTextAlignmentLeft => d
  | DdisplayOff =>
      {| powered := false; font := font d; buffer := buffer d; panel := panel d |}
  | Dclear =>
      {| powered := powered d; font := font d; buffer := []; panel := panel d |}
  | DsetFont f =>
      {| powered := powered d; font := f; buffer := buffer d; panel := panel d |}
  | DdrawString x y s =>
      {| powered := powered d; font := font d;
         buffer := buffer d ++ [{| at_x := x; at_y := y; in_font := font d; text := s |}];
         panel := panel d |}
  | Ddisplay =>
      {| powered := powered d; font := font d; buffer := buffer d; panel := buffer d |}
  end.

(** The display after [display.init()]. *)
Definition oled_on : Oled :=
  {| powered := true; font := ArialMT_Plain_10; buffer := []; panel := [] |}.

Definition oled_event (d : Oled) (e : Event) : Oled :=
  match e with
  | Display c => oled_call d c
  | _ => d
  end.

Definition oled_after (d : Oled) (l : list Event) : Oled :=
  fold_left oled_event l d.

(** What one sees: nothing while the panel is off. *)
Definition visible (d : Oled) : list Glyphs :=
  if powered d then panel d else [].

(** The contents sent to the panel by the calls [l], one per [display()]. *)
Fixpoint flushes (d : Oled) (l : list Event) : list (list Glyphs) :=
  match l with
  | [] => []
  | e :: l' =>
      let d' := oled_event d e in
      match e with
      | Display Ddisplay => buffer d' :: flushes d' l'
      | _ => flushes d' l'
      end
  end.

(** Two lines of text as [showTextRectangle] lays them out in the large
    font. *)
Definition two_lines (ln1 ln2 : string) : list Glyphs :=
  [ {| at_x := 32; at_y := 16; in_font := ArialMT_Plain_24; text := ln1 |};
    {| at_x := 32; at_y := 36; in_font := ArialMT_Plain_24; text := ln2 |} ].

(** The configurations that differ from [cfg] in the display settings
    only. *)
Definition same_but_display (cfg cfg' : Config) : Prop :=
  hasPM cfg' = hasPM cfg ∧ hasCO2 cfg' = hasCO2 cfg ∧
  hasSHT cfg' = hasSHT cfg ∧ hasTVOC cfg' = hasTVOC cfg ∧
  tempOffsetC cfg' = tempOffsetC cfg ∧ connectWIFI cfg' = connectWIFI cfg.

(** [addField] for each pair of [l], in order. *)
Definition addFields (l : list (string * FieldValue)) (p : Point) : Point :=
  foldl (fun q kv => addField kv.1 kv.2 q) p l.

Definition set_displayData (v : bool) (cfg : Config) : Config :=
  {| hasPM := hasPM cfg; hasCO2 := hasCO2 cfg; hasSHT := hasSHT cfg;
     hasTVOC := hasTVOC cfg; inUSaqi := inUSaqi cfg; inF := inF cfg;
     tempOffsetC := tempOffsetC cfg; connectWIFI := connectWIFI cfg;
     displayData := v |}.

Definition set_writePoint (v : bool) (r : Readings) : Readings :=
  {| getPM2_Raw := getPM2_Raw r; getCO2_Raw := getCO2_Raw r;
     periodicFetchData := periodicFetchData r; getTVOC := getTVOC r;
     writePoint := v; write_error := write_error r |}.

Definition is_getCO2 (e : Event) : bool :=
  match e with GetCO2Raw => true | _ => false end.

(** How many of the calls [l] satisfy [f]. *)
Definition occurrences (f : Event -> bool) (l : list Event) : nat :=
  length (List.filter f l).

Definition is_display_init (e : Event) : bool :=
  match e with Display Dinit => true | _ => false end.

(** A configuration without network, with the CO2 sensor only. *)
Definition offline : Config :=
  {| hasPM := false; hasCO2 := true; hasSHT := false; hasTVOC := false;
     inUSaqi := false; inF := true; tempOffsetC := float_of_int 0;
     connectWIFI := false; displayData := true |}.

(** Readings with the CO2 driver's error code. *)
Definition co2_error : Readings :=
  {| getPM2_Raw := 40; getCO2_Raw := -1;
     periodicFetchData := {| t := float_of_int 20; rh := float_of_int 45 |};
     getTVOC := 7; writePoint := false; write_error := "connection refused" |}.

(** A boot in which neither the network nor the server answers. *)
Definition no_network : Boot :=
  {| getChipId := 11259375; isConnected := true; measureTest := true;
     lastError := 0; autoConnect := false; validateConnection := false;
     getServerUrl := "https://influx.example"; getLastErrorMessage := "timeout" |}.

(** A boot in which the network answers and the server does not. *)
Definition no_server : Boot :=
  {| getChipId := 11259375; isConnected := true; measureTest := true;
     lastError := 0; autoConnect := true; validateConnection := false;
     getServerUrl := "https://influx.example"; getLastErrorMessage := "timeout" |}.

(** The shipped configuration with the three display settings flipped. *)
Definition flipped : Config :=
  {| hasPM := true; hasCO2 := true; hasSHT := true; hasTVOC := true;
     inUSaqi := true; inF := false; tempOffsetC := float_of_int 0;
     connectWIFI := true; displayData := true |}.

(** The end-to-end scenario of the specification: particle and temperature
    sensor, Fahrenheit, no offset; 40 ug/m3 and 20 degrees Celsius. *)
Definition pm_and_sht : Config :=
  {| hasPM := true; hasCO2 := false; hasSHT := true; hasTVOC := false;
     inUSaqi := false; inF := true; tempOffsetC := float_of_int 0;
     connectWIFI := true; displayData := true |}.

Definition scenario : Readings :=
  {| getPM2_Raw := 40; getCO2_Raw := 0;
     periodicFetchData := {| t := float_of_int 20; rh := float_of_int 45 |};
     getTVOC := 0; writePoint := true; write_error := "" |}.

(** The closed examples need some conversion to text; no property below
    depends on which. *)
Definition blank {A : Type} (x : A) : string := "".

(** ** The sketch *)
Section Sketch.

(** [String(float)], [String(unsigned, HEX)] and
    [Point::toLineProtocol()]. *)
Variable String_float : spec_float -> string.
Variable String_hex : Z -> string.
Variable toLineProtocol : Point -> string.

(** Lines 186-197. *)
Definition showTextRectangle (ln1 ln2 : string) (small : bool) : M unit :=
  call (Display Dclear) ;;
  call (Display DsetTextAlignmentLeft) ;;
  (if small then call (Display (DsetFont ArialMT_Plain_16))
   else call (Display (DsetFont ArialMT_Plain_24))) ;;
  call (Display (DdrawString 32 16 ln1)) ;;
  call (Display (DdrawString 32 36 ln2)) ;;
  call (Display Ddisplay).

(** Lines 200-212.  [ESP.restart()] does not return to the sketch: the
    [delay(5000)] behind it is written down and never reached. *)
Definition connectToWifi (b : Boot) : M unit :=
  let HOTSPOT := "AIRGRADIENT-" +:+ String_hex (getChipId b) in
  call (WifiSetTimeout 120) ;;
  joined ← answer (WifiAutoConnect HOTSPOT) (autoConnect b) ;
  when (negb joined) (
    Serial_println "failed to connect and hit timeout" ;;
    delay 3000 ;;
    ESP_restart ;;
    delay 5000).

(** Lines 73-114. *)
Definition setup (cfg : Config) (b : Boot) : M unit :=
  call (SerialBegin 9600) ;;
  call (Display Dinit) ;;
  call (Display DflipScreenVertically) ;;
  showTextRectangle "Init" (String_hex (getChipId b)) true ;;
  when (hasTVOC cfg) (
    connected ← answer SgpIsConnected (isConnected b) ;
    if (connected : bool) then
      Serial_println "Initializing SGP sensor" ;;
      call SgpBegin ;;
      passed ← answer SgpMeasureTest (measureTest b) ;
      if (passed : bool) then
        Serial_println "SGP self-check complete"
      else
        Serial_println "SGP self-check failed" ;;
        Serial_print "SGP error code: " ;;
        Serial_println (String_int (lastError b))
    else
      Serial_println "SGP sensor not connected!") ;;
  when (hasPM cfg) (call PmsInit) ;;
  when (hasCO2 cfg) (call Co2Init) ;;
  when (hasSHT cfg) (call (TmpRhInit 68)) ;;
  when (connectWIFI cfg) (connectToWifi b) ;;
  delay 2000 ;;
  call (TimeSync TZ_INFO "pool.ntp.org" "time.nis.gov") ;;
  valid ← answer ValidateConnection (validateConnection b) ;
  if (valid : bool) then
    Serial_print "Connected to InfluxDB: " ;;
    Serial_println (getServerUrl b)
  else
    Serial_print "InfluxDB connection failed: " ;;
    Serial_println (getLastErrorMessage b) ;;
    while_true.

(** Lines 116-183. *)
Definition loop (cfg : Config) (r : Readings) : M unit :=
  when (negb (displayData cfg)) (call (Display DdisplayOff)) ;;
  influxPoint_clearFields ;;
  when (hasTVOC cfg) (call (SgpMeasure false)) ;;
  when (hasPM cfg) (
    PM2 ← answer GetPM2Raw (getPM2_Raw r) ;
    influxPoint_addField "pm2" (IntField PM2) ;;
    influxPoint_addField "aqi" (IntField (PM_TO_AQI_US PM2)) ;;
    (if inUSaqi cfg then
       showTextRectangle "AQI" (String_int (PM_TO_AQI_US PM2)) false
     else
       showTextRectangle "PM2" (String_int PM2) false) ;;
    delay 3000) ;;
  when (hasCO2 cfg) (
    CO2 ← answer GetCO2Raw (getCO2_Raw r) ;
    when (CO2 >? 0) (influxPoint_addField "co2" (IntField CO2)) ;;
    showTextRectangle "CO2" (String_int CO2) false ;;
    delay 3000) ;;
  when (hasSHT cfg) (
    result ← answer PeriodicFetchData (periodicFetchData r) ;
    let actualTemp := (t result + tempOffsetC cfg)%single in
    influxPoint_addField "temp" (FloatField actualTemp) ;;
    influxPoint_addField "rhum" (FloatField (rh result)) ;;
    (if inF cfg then
       showTextRectangle
         (String_float ((actualTemp * float_of_int 9 / float_of_int 5)
                        + float_of_int 32)%single)
         (String_float (rh result) +:+ "%") false
     else
       showTextRectangle (String_float actualTemp)
         (String_float (rh result) +:+ "%") false) ;;
    delay 3000) ;;
  when (hasTVOC cfg) (
    TVOC ← answer SgpGetTVOC (getTVOC r) ;
    influxPoint_addField "tvoc" (IntField TVOC) ;;
    showTextRectangle "TVOC" (String_int TVOC) false ;;
    delay 3000) ;;
  when (connectWIFI cfg) (
    Serial_print "Writing: " ;;
    p ← influxPoint_get ;
    Serial_println (toLineProtocol p) ;;
    written ← answer (WritePoint p) (writePoint r) ;
    when (negb written) (
      Serial_print "InfluxDB write failed: " ;;
      Serial_println (write_error r)) ;;
    delay 48000).

(** The Arduino core runs [setup(); for (;;) loop();].  [loops n] is [n]
    calls of [loop()], the [k]-th under the answers [sensors k]. *)
Fixpoint loops (cfg : Config) (sensors : nat -> Readings) (k n : nat) : M unit :=
  match n with
  | O => mret tt
  | S n' => loop cfg (sensors k) ;; loops cfg sensors (S k) n'
  end.

(** The execution of the sketch from power-on, up to its [n]-th call of
    [loop()]. *)
Definition sketch (cfg : Config) (b : Boot) (sensors : nat -> Readings) (n : nat)
  : Run unit :=
  (setup cfg b ;; loops cfg sensors 0 n) influxPoint.

(** *** The calls of one cycle, stage by stage

    [loop] makes these calls, in this order ([loop_run] below). *)
Definition rendering (ln1 ln2 : string) (small : bool) : list Event :=
  [ Display Dclear; Display DsetTextAlignmentLeft;
    Display (DsetFont (if small then ArialMT_Plain_16 else ArialMT_Plain_24));
    Display (DdrawString 32 16 ln1); Display (DdrawString 32 36 ln2);
    Display Ddisplay ].

Definition pm_shown (cfg : Config) (r : Readings) : string * string :=
  if inUSaqi cfg then ("AQI", String_int (PM_TO_AQI_US (getPM2_Raw r)))
  else ("PM2", String_int (getPM2_Raw r)).

Definition actualTemp (cfg : Config) (r : Readings) : spec_float :=
  (t (periodicFetchData r) + tempOffsetC cfg)%single.

Definition temp_shown (cfg : Config) (r : Readings) : spec_float :=
  if inF cfg then
    ((actualTemp cfg r * float_of_int 9 / float_of_int 5) + float_of_int 32)%single
  else actualTemp cfg r.

Definition sht_shown (cfg : Config) (r : Readings) : string * string :=
  (String_float (temp_shown cfg r),
   String_float (rh (periodicFetchData r)) +:+ "%").

Definition pm_calls (cfg : Config) (r : Readings) : list Event :=
  if hasPM cfg then
    GetPM2Raw :: rendering (pm_shown cfg r).1 (pm_shown cfg r).2 false ++ [Delay 3000]
  else [].

Definition co2_calls (cfg : Config) (r : Readings) : list Event :=
  if hasCO2 cfg then
    GetCO2Raw :: rendering "CO2" (String_int (getCO2_Raw r)) false ++ [Delay 3000]
  else [].

Definition sht_calls (cfg : Config) (r : Readings) : list Event :=
  if hasSHT cfg then
    PeriodicFetchData ::
      rendering (sht_shown cfg r).1 (sht_shown cfg r).2 false ++ [Delay 3000]
  else [].

Definition tvoc_calls (cfg : Config) (r : Readings) : list Event :=
  if hasTVOC cfg then
    SgpGetTVOC :: rendering "TVOC" (String_int (getTVOC r)) false ++ [Delay 3000]
  else [].

Definition failure_log (r : Readings) : list Event :=
  if writePoint r then []
  else [SerialPrint "InfluxDB write failed: "; SerialPrintln (write_error r)].

Definition send_calls (cfg : Config) (r : Readings) (p : Point) : list Event :=
  if connectWIFI cfg then
    [SerialPrint "Writing: "; SerialPrintln (toLineProtocol p); WritePoint p]
      ++ failure_log r ++ [Delay 48000]
  else [].

Definition sensor_calls (cfg : Config) (r : Readings) : list Event :=
  (if hasTVOC cfg then [SgpMeasure false] else [])
    ++ pm_calls cfg r ++ co2_calls cfg r ++ sht_calls cfg r ++ tvoc_calls cfg r.

Definition cycle_point (cfg : Config) (r : Readings) (p : Point) : Point :=
  {| measurement := measurement p; fields := cycle_fields cfg r |}.

Definition cycle_calls (cfg : Config) (r : Readings) (p : Point) : list Event :=
  (if displayData cfg then [] else [Display DdisplayOff])
    ++ sensor_calls cfg r ++ send_calls cfg r (cycle_point cfg r p).

(** The screens of one cycle: what each capability sends to the panel. *)
Definition pm_screens (cfg : Config) (r : Readings) : list (list Glyphs) :=
  if hasPM cfg then [two_lines (pm_shown cfg r).1 (pm_shown cfg r).2] else [].

Definition co2_screens (cfg : Config) (r : Readings) : list (list Glyphs) :=
  if hasCO2 cfg then [two_lines "CO2" (String_int (getCO2_Raw r))] else [].

Definition sht_screens (cfg : Config) (r : Readings) : list (list Glyphs) :=
  if hasSHT cfg then [two_lines (sht_shown cfg r).1 (sht_shown cfg r).2] else [].

Definition tvoc_screens (cfg : Config) (r : Readings) : list (list Glyphs) :=
  if hasTVOC cfg then [two_lines "TVOC" (String_int (getTVOC r))] else [].

(** *** The calls of [setup], up to the network *)
Definition sgp_calls (cfg : Config) (b : Boot) : list Event :=
  if hasTVOC cfg then
    SgpIsConnected ::
      (if isConnected b then
         [SerialPrintln "Initializing SGP sensor"; SgpBegin; SgpMeasureTest]
           ++ (if measureTest b then [SerialPrintln "SGP self-check complete"]
               else [SerialPrintln "SGP self-check failed";
                     SerialPrint "SGP error code: ";
                     SerialPrintln (String_int (lastError b))])
       else [SerialPrintln "SGP sensor not connected!"])
  else [].

Definition init_calls (cfg : Config) (b : Boot) : list Event :=
  [SerialBegin 9600; Display Dinit; Display DflipScreenVertically]
    ++ rendering "Init" (String_hex (getChipId b)) true
    ++ sgp_calls cfg b
    ++ (if hasPM cfg then [PmsInit] else [])
    ++ (if hasCO2 cfg then [Co2Init] else [])
    ++ (if hasSHT cfg then [TmpRhInit 68] else []).

Definition join_calls (b : Boot) : list Event :=
  [WifiSetTimeout 120; WifiAutoConnect ("AIRGRADIENT-" +:+ String_hex (getChipId b))].

Definition timeout_calls : list Event :=
  [SerialPrintln "failed to connect and hit timeout"; Delay 3000; EspRestart].

Definition validate_calls (b : Boot) : list Event :=
  [Delay 2000; TimeSync TZ_INFO "pool.ntp.org" "time.nis.gov"; ValidateConnection]
    ++ (if validateConnection b then
          [SerialPrint "Connected to InfluxDB: "; SerialPrintln (getServerUrl b)]
        else
          [SerialPrint "InfluxDB connection failed: ";
           SerialPrintln (getLastErrorMessage b)]).


Definition setup_calls (cfg : Config) (b : Boot) : list Event :=
  init_calls cfg b ++
    (if connectWIFI cfg then
       join_calls b ++ (if autoConnect b then validate_calls b else timeout_calls)
     else validate_calls b).

(** How [setup] ends: the join timed out, or the server was validated, or
    it was not. *)
Definition setup_outcome (cfg : Config) (b : Boot) : Outcome unit :=
  if connectWIFI cfg && negb (autoConnect b) then Restarts
  else if validateConnection b then Returns tt
  else Spins.

(** The calls of the cycles [k], ..., [k + n - 1]. *)
Definition loops_calls (cfg : Config) (sensors : nat -> Readings) (k n : nat)
    (p : Point) : list Event :=
  concat (map (fun i => cycle_calls cfg (sensors i) p) (seq k n)).


(** ** Measures of an execution *)

(** The time the calls [l] spend in [delay], in ms. *)
Fixpoint total_delay (l : list Event) : Z :=
  match l with
  | [] => 0
  | Delay ms :: l' => ms + total_delay l'
  | _ :: l' => total_delay l'
  end.

(** The number of active capabilities. *)
Definition active_capabilities (cfg : Config) : Z :=
  Z.b2z (hasPM cfg) + Z.b2z (hasCO2 cfg) + Z.b2z (hasSHT cfg) + Z.b2z (hasTVOC cfg).

Definition is_getPM2 (e : Event) : bool :=
  match e with GetPM2Raw => true | _ => false end.

Definition is_fetchData (e : Event) : bool :=
  match e with PeriodicFetchData => true | _ => false end.

Definition is_getTVOC (e : Event) : bool :=
  match e with SgpGetTVOC => true | _ => false end.

Definition is_sgpMeasure (e : Event) : bool :=
  match e with SgpMeasure _ => true | _ => false end.

Definition is_autoConnect (e : Event) : bool :=
  match e with WifiAutoConnect _ => true | _ => false end.

Definition is_validateConnection (e : Event) : bool :=
  match e with ValidateConnection => true | _ => false end.

Definition is_displayOff (e : Event) : bool :=
  match e with Display DdisplayOff => true | _ => false end.

(** The names of the fields of a cycle. *)
Definition field_names (cfg : Config) (r : Readings) : gset string :=
  (if hasPM cfg then {["pm2"; "aqi"]} else ∅)
    ∪ (if hasCO2 cfg && (getCO2_Raw r >? 0) then {["co2"]} else ∅)
    ∪ (if hasSHT cfg then {["temp"; "rhum"]} else ∅)
    ∪ (if hasTVOC cfg then {["tvoc"]} else ∅).

(** Two lines of text in the small font, as [setup] shows them. *)
Definition two_small_lines (ln1 ln2 : string) : list Glyphs :=
  [ {| at_x := 32; at_y := 16; in_font := ArialMT_Plain_16; text := ln1 |};
    {| at_x := 32; at_y := 36; in_font := ArialMT_Plain_16; text := ln2 |} ].

(** ** The index in exact arithmetic

    The formula of [PM_TO_AQI_US] over the rationals, with the breakpoints
    as the decimals they are written as, and the result truncated towards
    zero. *)
Definition aqi_band (lo_aqi hi_aqi : Z) (lo_bp hi_bp : Q) (pm02 : Z) : Q :=
  (inject_Z (hi_aqi - lo_aqi) / (hi_bp - lo_bp) * (inject_Z pm02 - lo_bp)
   + inject_Z lo_aqi)%Q.

Definition Q_to_int (q : Q) : Z := Z.quot (Qnum q) (Zpos (Qden q)).

Definition PM_TO_AQI_US_exact (pm02 : Z) : Z :=
  if pm02 <=? 12 then Q_to_int (aqi_band 0 50 (0 # 10) (120 # 10) pm02)
  else if pm02 <=? 35 then Q_to_int (aqi_band 50 100 (120 # 10) (354 # 10) pm02)
  else if pm02 <=? 55 then Q_to_int (aqi_band 100 150 (354 # 10) (554 # 10) pm02)
  else if pm02 <=? 150 then Q_to_int (aqi_band 150 200 (554 # 10) (1504 # 10) pm02)
  else if pm02 <=? 250 then Q_to_int (aqi_band 200 300 (1504 # 10) (2504 # 10) pm02)
  else if pm02 <=? 350 then Q_to_int (aqi_band 300 400 (2504 # 10) (3504 # 10) pm02)
  else if pm02 <=? 500 then Q_to_int (aqi_band 400 500 (3504 # 10) (5004 # 10) pm02)
  else 500.

(** The value of a finite [float] ([0] for the others). *)
Definition float_to_Q (x : spec_float) : Q :=
  match x with
  | S754_finite s m (Zpos k) => inject_Z ((if s then -1 else 1) * (Zpos m * 2 ^ Zpos k))
  | S754_finite s m Z0 => inject_Z ((if s then -1 else 1) * Zpos m)
  | S754_finite s m (Zneg k) => ((if s then -1 else 1) * Zpos m) # (2 ^ k)
  | _ => 0
  end.

(** [f] holds of the [fuel] integers from [z] on. *)
Fixpoint all_from (f : Z -> bool) (fuel : nat) (z : Z) : bool :=
  match fuel with
  | O => true
  | S fuel' => f z && all_from f fuel' (z + 1)
  end.

Definition is_display (e : Event) : bool :=
  match e with Display _ => true | _ => false end.

(** The last active capability of [cfg], whose screen stays on the panel
    at the end of a cycle. *)
Definition last_screen (cfg : Config) (r : Readings) : option (list Glyphs) :=
  if hasTVOC cfg then Some (two_lines "TVOC" (String_int (getTVOC r)))
  else if hasSHT cfg then Some (two_lines (sht_shown cfg r).1 (sht_shown cfg r).2)
  else if hasCO2 cfg then Some (two_lines "CO2" (String_int (getCO2_Raw r)))
  else if hasPM cfg then Some (two_lines (pm_shown cfg r).1 (pm_shown cfg r).2)
  else None.

(** Fahrenheit, exactly, of a whole number of degrees Celsius. *)
Definition fahrenheit_exact (c : Z) : Q := ((9 * c # 5) + 32)%Q.

(** [lo <= x <= hi] on the rationals, decided. *)
Definition Q_between (lo hi x : Q) : bool := Qle_bool lo x && Qle_bool x hi.

(** A boot in which the network and the server answer. *)
Definition online : Boot :=
  {| getChipId := 11259375; isConnected := true; measureTest := true;
     lastError := 0; autoConnect := true; validateConnection := true;
     getServerUrl := "https://influx.example"; getLastErrorMessage := "" |}.

(** * Properties *)

(** ** Integers as [double]s *)

Lemma digits2_pos_bounds (p : positive) :
  2 ^ (Zpos (digits2_pos p) - 1) <= Zpos p < 2 ^ Zpos (digits2_pos p).
Proof.
  induction p as [p IH | p IH |]; cbn [digits2_pos].
  - rewrite Pos2Z.inj_succ.
    replace (Z.succ (Zpos (digits2_pos p)) - 1)
      with (Z.succ (Zpos (digits2_pos p) - 1)) by lia.
    rewrite !Z.pow_succ_r by lia. lia.
  - rewrite Pos2Z.inj_succ.
    replace (Z.succ (Zpos (digits2_pos p)) - 1)
      with (Z.succ (Zpos (digits2_pos p) - 1)) by lia.
    rewrite !Z.pow_succ_r by lia. lia.
  - cbn. lia.
Qed.

Lemma iter_xO_digits (k p : positive) :
  digits2_pos (Pos.iter xO p k) = (digits2_pos p + k)%positive.
Proof.
  induction k as [| k IH] using Pos.peano_ind.
  - cbn. lia.
  - rewrite Pos.iter_succ. cbn [digits2_pos]. rewrite IH. lia.
Qed.

Lemma iter_xO_value (k p : positive) :
  Zpos (Pos.iter xO p k) = Zpos p * 2 ^ Zpos k.
Proof.
  induction k as [| k IH] using Pos.peano_ind.
  - cbn. lia.
  - rewrite Pos.iter_succ, Pos2Z.inj_xO, IH, Pos2Z.inj_succ, Z.pow_succ_r by lia.
    lia.
Qed.

(** An integer of fewer than 53 bits is a [double]: its digits, shifted to
    the top of the significand. *)
Lemma double_of_int_pos (p : positive) :
  Zpos (digits2_pos p) < 53 ->
  double_of_int (Zpos p) =
    S754_finite false (Pos.iter xO p (Z.to_pos (53 - Zpos (digits2_pos p))))
      (Zpos (digits2_pos p) - 53).
Proof.
  intros Hd. unfold double_of_int, ieee_of_int, binary_normalize, binary_round.
  set (d := Zpos (digits2_pos p)) in *.
  assert (Hf : fexp 53 1024 (d + 0) = d - 53) by (unfold fexp, emin; lia).
  rewrite Hf. unfold shl_align.
  destruct (d - 53 - 0) as [| q | q] eqn:Hq; try lia.
  assert (Hk : Z.to_pos (53 - d) = q) by lia. rewrite Hk.
  unfold binary_round_aux, shr_fexp. cbn [Zdigits2 shr_record_of_loc].
  rewrite iter_xO_digits.
  assert (Hf2 : fexp 53 1024 (Zpos (digits2_pos p + q) + (d - 53)) - (d - 53) = 0)
    by (unfold fexp, emin; fold d; lia).
  rewrite Hf2. cbn [shr shr_m loc_of_shr_record round_nearest_even Zdigits2].
  rewrite iter_xO_digits, Hf2. cbn [shr shr_m].
  destruct (Z.leb_spec (d - 53) (1024 - 53)); [reflexivity | lia].
Qed.

(** Every [int] from 501 on compares above a positive [double] below 501. *)
Lemma double_leb_above (pm02 : Z) (m : positive) (e : Z) :
  501 <= pm02 <= INT_MAX ->
  e < -44 \/ (e = -44 /\ Zpos m < 501 * 2 ^ 44) ->
  (double_of_int pm02 <=? S754_finite false m e)%double = false.
Proof.
  intros [Hlo Hhi] He. unfold INT_MAX in Hhi.
  destruct pm02 as [| p | p]; try lia.
  pose proof (digits2_pos_bounds p) as [Hb1 Hb2].
  set (d := Zpos (digits2_pos p)) in *.
  assert (Hd9 : 9 <= d).
  { destruct (Z.le_gt_cases 9 d) as [|Hlt]; [assumption|].
    assert (2 ^ d <= 2 ^ 8) by (apply Z.pow_le_mono_r; lia).
    change (2 ^ 8) with 256 in *. lia. }
  assert (Hd31 : d <= 31).
  { destruct (Z.le_gt_cases d 31) as [|Hgt]; [assumption|].
    assert (2 ^ 31 <= 2 ^ (d - 1)) by (apply Z.pow_le_mono_r; lia).
    change (2 ^ 31) with 2147483648 in *. lia. }
  rewrite double_of_int_pos by (fold d; lia). fold d.
  unfold double_leb, SFleb, SFcompare.
  destruct (Z.compare_spec (d - 53) e) as [Heq | Hlt | Hgt]; try reflexivity; try lia.
  destruct He as [He | [He Hm]]; [lia|].
  assert (Hd : d = 9) by lia.
  change (Pos.compare_cont Eq ?a ?b) with (Pos.compare a b).
  rewrite Hd. change (Z.to_pos (53 - 9)) with 44%positive.
  destruct (Pos.compare_spec (Pos.iter xO p 44) m) as [H | H | H]; try reflexivity.
  - apply (f_equal Zpos) in H. rewrite iter_xO_value in H. lia.
  - apply Pos2Z.pos_lt_pos in H. rewrite iter_xO_value in H. lia.
Qed.

(** The literals of the sketch are the binary64 values the compiler reads
    them as. *)
Lemma double_literals :
  Prim2SF 12.0%float = 12.0%double /\ Prim2SF 35.4%float = 35.4%double /\
  Prim2SF 55.4%float = 55.4%double /\ Prim2SF 150.4%float = 150.4%double /\
  Prim2SF 250.4%float = 250.4%double /\ Prim2SF 350.4%float = 350.4%double /\
  Prim2SF 500.4%float = 500.4%double /\ Prim2SF 0.0%float = 0.0%double.
Proof. repeat split; vm_compute; reflexivity. Qed.

(** ** [PM_TO_AQI_US] *)

Lemma PM_TO_AQI_US_first_band (pm02 : Z) :
  0 <= pm02 < 12 -> 0 <= PM_TO_AQI_US pm02 < 50.
Proof.
  intros H.
  assert (Hcases : In pm02 [0; 1; 2; 3; 4; 5; 6; 7; 8; 9; 10; 11]).
  { cbn. lia. }
  cbn in Hcases.
  repeat (destruct Hcases as [<- | Hcases]; [vm_compute; split; congruence |]).
  contradiction.
Qed.

Lemma PM_TO_AQI_US_clamped (pm02 : Z) :
  501 <= pm02 <= INT_MAX -> PM_TO_AQI_US pm02 = 500.
Proof.
  intros H. unfold PM_TO_AQI_US, PM_TO_AQI_US_double.
  rewrite !(double_leb_above pm02) by (assumption || (left; lia) || (right; split; [reflexivity | lia])).
  reflexivity.
Qed.

Lemma PM_TO_AQI_US_upto_500 :
  forallb (fun n => (0 <=? PM_TO_AQI_US (Z.of_nat n)) && (PM_TO_AQI_US (Z.of_nat n) <=? 499))
    (seq 0 501) = true.
Proof. vm_compute. reflexivity. Qed.

(** No reading from 0 on leaves the range of the index, so the conversion
    of the result to [int] is always defined. *)
Lemma PM_TO_AQI_US_range (pm02 : Z) :
  0 <= pm02 <= INT_MAX -> 0 <= PM_TO_AQI_US pm02 <= 500.
Proof.
  intros [Hlo Hhi]. destruct (Z.le_gt_cases pm02 500) as [Hle | Hgt].
  - pose proof PM_TO_AQI_US_upto_500 as Hall.
    rewrite forallb_forall in Hall.
    specialize (Hall (Z.to_nat pm02)). rewrite Z2Nat.id in Hall by exact Hlo.
    assert (Hin : In (Z.to_nat pm02) (seq 0 501)) by (apply in_seq; lia).
    apply Hall in Hin. apply andb_true_iff in Hin as [H1 H2].
    apply Z.leb_le in H1, H2. lia.
  - rewrite PM_TO_AQI_US_clamped by lia. lia.
Qed.

(** Unfolds the programs and the monad, and nothing of the data. *)
Ltac run_monad :=
  cbv beta iota zeta delta
    [loop setup connectToWifi showTextRectangle when delay Serial_print
     Serial_println call answer while_true ESP_restart influxPoint_clearFields
     influxPoint_addField influxPoint_get mbind M_bind mret M_ret outcome point
     calls negb app].

(** ** Running the monad *)

Lemma seq_run {A B : Type} (m : M A) (f : A -> M B) (p : Point)
    (a : A) (q : Point) (l : list Event) (o : Outcome B) (q' : Point)
    (l' : list Event) :
  m p = {| outcome := Returns a; point := q; calls := l |} ->
  f a q = {| outcome := o; point := q'; calls := l' |} ->
  (m ≫= f) p = {| outcome := o; point := q'; calls := l ++ l' |}.
Proof.
  intros Hm Hf. unfold mbind, M_bind. rewrite Hm. cbn. rewrite Hf. reflexivity.
Qed.

Lemma seq_silent {A B : Type} (m : M A) (f : A -> M B) (p : Point)
    (a : A) (q : Point) (x : Run B) :
  m p = {| outcome := Returns a; point := q; calls := [] |} ->
  f a q = x ->
  (m ≫= f) p = x.
Proof.
  intros Hm Hf. unfold mbind, M_bind. rewrite Hm. cbn. rewrite Hf.
  destruct x as [[a' | |] q' l']; reflexivity.
Qed.

Lemma seq_restarts {A B : Type} (m : M A) (f : A -> M B) (p q : Point)
    (l : list Event) :
  m p = {| outcome := Restarts; point := q; calls := l |} ->
  (m ≫= f) p = {| outcome := Restarts; point := q; calls := l |}.
Proof. intros Hm. unfold mbind, M_bind. rewrite Hm. reflexivity. Qed.

Lemma seq_spins {A B : Type} (m : M A) (f : A -> M B) (p q : Point)
    (l : list Event) :
  m p = {| outcome := Spins; point := q; calls := l |} ->
  (m ≫= f) p = {| outcome := Spins; point := q; calls := l |}.
Proof. intros Hm. unfold mbind, M_bind. rewrite Hm. reflexivity. Qed.

Lemma showTextRectangle_run (ln1 ln2 : string) (small : bool) (p : Point) :
  showTextRectangle ln1 ln2 small p =
    {| outcome := Returns tt; point := p; calls := rendering ln1 ln2 small |}.
Proof. destruct small; reflexivity. Qed.

(** One call of [loop()] returns, leaves the fields of this cycle in the
    point and makes the calls of the stages in their order. *)
Lemma loop_run (cfg : Config) (r : Readings) (p : Point) :
  loop cfg r p =
    {| outcome := Returns tt;
       point := cycle_point cfg r p;
       calls := cycle_calls cfg r p |}.
Proof.
  unfold loop, cycle_calls, sensor_calls. rewrite <- !app_assoc.
  set (q0 := clearFields p).
  set (at_fields := fun m => {| measurement := measurement p; fields := m |}).
  (* if (!displayData) display.displayOff(); *)
  apply (seq_run _ _ _ tt p); [destruct (displayData cfg); reflexivity |].
  (* influxPoint.clearFields(); *)
  apply (seq_silent _ _ _ tt q0); [reflexivity |].
  (* if (hasTVOC) SGP.measure(false); *)
  apply (seq_run _ _ _ tt q0); [destruct (hasTVOC cfg); reflexivity |].
  (* if (hasPM) ... *)
  apply (seq_run _ _ _ tt (at_fields (pm_fields cfg r ∅))).
  { unfold pm_calls, pm_fields, pm_shown.
    destruct (hasPM cfg), (inUSaqi cfg); reflexivity. }
  (* if (hasCO2) ... *)
  apply (seq_run _ _ _ tt (at_fields (co2_fields cfg r (pm_fields cfg r ∅)))).
  { unfold co2_calls, co2_fields.
    destruct (hasCO2 cfg), (getCO2_Raw r >? 0) eqn:E; cbn [andb];
      try reflexivity; run_monad; rewrite E; reflexivity. }
  (* if (hasSHT) ... *)
  apply (seq_run _ _ _ tt
           (at_fields (sht_fields cfg r (co2_fields cfg r (pm_fields cfg r ∅))))).
  { unfold sht_calls, sht_fields, sht_shown, temp_shown, actualTemp.
    destruct (hasSHT cfg), (inF cfg); reflexivity. }
  (* if (hasTVOC) ... *)
  apply (seq_run _ _ _ tt (at_fields (cycle_fields cfg r))).
  { unfold tvoc_calls, cycle_fields, tvoc_fields.
    destruct (hasTVOC cfg); reflexivity. }
  (* if (connectWIFI) ... *)
  unfold send_calls, failure_log, cycle_point.
  destruct (connectWIFI cfg), (writePoint r); reflexivity.
Qed.

Lemma connectToWifi_run (b : Boot) (p : Point) :
  connectToWifi b p =
    {| outcome := if autoConnect b then Returns tt else Restarts;
       point := p;
       calls := join_calls b ++ (if autoConnect b then [] else timeout_calls) |}.
Proof. unfold connectToWifi. destruct (autoConnect b); reflexivity. Qed.

(** [setup] leaves the point alone, makes the calls [setup_calls] and ends
    as [setup_outcome] says. *)
Lemma setup_run (cfg : Config) (b : Boot) (p : Point) :
  setup cfg b p =
    {| outcome := setup_outcome cfg b; point := p; calls := setup_calls cfg b |}.
Proof.
  unfold setup, setup_calls, init_calls, setup_outcome. rewrite <- !app_assoc.
  apply (seq_run _ _ _ tt p [SerialBegin 9600]); [reflexivity |].
  apply (seq_run _ _ _ tt p [Display Dinit]); [reflexivity |].
  apply (seq_run _ _ _ tt p [Display DflipScreenVertically]); [reflexivity |].
  apply (seq_run _ _ _ tt p); [apply showTextRectangle_run |].
  apply (seq_run _ _ _ tt p).
  { unfold sgp_calls.
    destruct (hasTVOC cfg), (isConnected b), (measureTest b); reflexivity. }
  apply (seq_run _ _ _ tt p); [destruct (hasPM cfg); reflexivity |].
  apply (seq_run _ _ _ tt p); [destruct (hasCO2 cfg); reflexivity |].
  apply (seq_run _ _ _ tt p); [destruct (hasSHT cfg); reflexivity |].
  destruct (connectWIFI cfg); cbn [when andb].
  - destruct (autoConnect b) eqn:Ej; cbn [negb].
    + apply (seq_run _ _ _ tt p).
      { rewrite connectToWifi_run, Ej, app_nil_r. reflexivity. }
      unfold validate_calls.
      destruct (validateConnection b); reflexivity.
    + apply seq_restarts. rewrite connectToWifi_run, Ej. reflexivity.
  - apply (seq_silent _ _ _ tt p); [reflexivity |].
    unfold validate_calls.
    destruct (validateConnection b); reflexivity.
Qed.

Lemma cycle_calls_measurement (cfg : Config) (r : Readings) (p q : Point) :
  measurement p = measurement q -> cycle_calls cfg r p = cycle_calls cfg r q.
Proof.
  intros H. unfold cycle_calls, send_calls, cycle_point. rewrite H. reflexivity.
Qed.

Lemma loops_calls_measurement (cfg : Config) (sensors : nat -> Readings)
    (n k : nat) (p q : Point) :
  measurement p = measurement q ->
  loops_calls cfg sensors k n p = loops_calls cfg sensors k n q.
Proof.
  intros H. unfold loops_calls. f_equal. apply map_ext. intros i.
  apply cycle_calls_measurement, H.
Qed.

(** [n] calls of [loop()] return; the point holds the fields of the last
    one. *)
Lemma loops_run (cfg : Config) (sensors : nat -> Readings) (n k : nat) (p : Point) :
  loops cfg sensors k n p =
    {| outcome := Returns tt;
       point := match n with
                | O => p
                | S n' => cycle_point cfg (sensors (k + n')%nat) p
                end;
       calls := loops_calls cfg sensors k n p |}.
Proof.
  revert k p. induction n as [| n IH]; intros k p.
  - reflexivity.
  - cbn [loops]. unfold loops_calls. cbn [seq map concat].
    apply (seq_run _ _ _ tt (cycle_point cfg (sensors k) p)); [apply loop_run |].
    rewrite IH.
    rewrite (loops_calls_measurement cfg sensors n (S k) _ p) by reflexivity.
    destruct n as [| n'].
    + rewrite Nat.add_0_r. reflexivity.
    + replace (k + S n')%nat with (S k + n')%nat by lia. reflexivity.
Qed.

(** The whole execution, up to the [n]-th call of [loop()]. *)
Lemma sketch_run (cfg : Config) (b : Boot) (sensors : nat -> Readings) (n : nat) :
  sketch cfg b sensors n =
    match setup_outcome cfg b with
    | Returns _ =>
        {| outcome := Returns tt;
           point := match n with
                    | O => influxPoint
                    | S n' => cycle_point cfg (sensors n') influxPoint
                    end;
           calls := setup_calls cfg b ++ loops_calls cfg sensors 0 n influxPoint |}
    | Restarts =>
        {| outcome := Restarts; point := influxPoint; calls := setup_calls cfg b |}
    | Spins =>
        {| outcome := Spins; point := influxPoint; calls := setup_calls cfg b |}
    end.
Proof.
  unfold sketch.
  destruct (setup_outcome cfg b) as [[] | |] eqn:E.
  - apply (seq_run _ _ _ tt influxPoint).
    + rewrite setup_run, E. reflexivity.
    + apply loops_run.
  - apply seq_restarts. rewrite setup_run, E. reflexivity.
  - apply seq_spins. rewrite setup_run, E. reflexivity.
Qed.

(** ** The fields of a cycle *)

Lemma cycle_fields_co2 (cfg : Config) (r : Readings) :
  cycle_fields cfg r !! "co2" =
    if hasCO2 cfg && (getCO2_Raw r >? 0) then Some (IntField (getCO2_Raw r))
    else None.
Proof.
  unfold cycle_fields, tvoc_fields, sht_fields, co2_fields, pm_fields.
  destruct (hasTVOC cfg), (hasSHT cfg), (hasCO2 cfg && (getCO2_Raw r >? 0)),
    (hasPM cfg); by simplify_map_eq.
Qed.

Lemma cycle_fields_pm (cfg : Config) (r : Readings) :
  hasPM cfg = true ->
  cycle_fields cfg r !! "pm2" = Some (IntField (getPM2_Raw r)) /\
  cycle_fields cfg r !! "aqi" = Some (IntField (PM_TO_AQI_US (getPM2_Raw r))).
Proof.
  intros H. unfold cycle_fields, tvoc_fields, sht_fields, co2_fields, pm_fields.
  rewrite H.
  destruct (hasTVOC cfg), (hasSHT cfg), (hasCO2 cfg && (getCO2_Raw r >? 0));
    by simplify_map_eq.
Qed.

Lemma cycle_fields_temp (cfg : Config) (r : Readings) :
  hasSHT cfg = true ->
  cycle_fields cfg r !! "temp" =
    Some (FloatField (t (periodicFetchData r) + tempOffsetC cfg)%single).
Proof.
  intros H. unfold cycle_fields, tvoc_fields, sht_fields. rewrite H.
  destruct (hasTVOC cfg); by simplify_map_eq.
Qed.

(** Every field of a cycle comes from an active capability, and [co2] from
    a positive reading. *)
Lemma pm_fields_origin (cfg : Config) (r : Readings) (m : gmap string FieldValue)
    (key : string) (v : FieldValue) :
  pm_fields cfg r m !! key = Some v ->
  (hasPM cfg = true /\
     (key = "pm2" /\ v = IntField (getPM2_Raw r) \/
      key = "aqi" /\ v = IntField (PM_TO_AQI_US (getPM2_Raw r)))) \/
  m !! key = Some v.
Proof.
  unfold pm_fields. destruct (hasPM cfg); [| auto]. intros H.
  apply lookup_insert_Some in H as [[<- <-] | [_ H]]; [auto |].
  apply lookup_insert_Some in H as [[<- <-] | [_ H]]; auto.
Qed.

Lemma co2_fields_origin (cfg : Config) (r : Readings) (m : gmap string FieldValue)
    (key : string) (v : FieldValue) :
  co2_fields cfg r m !! key = Some v ->
  (hasCO2 cfg = true /\ 0 < getCO2_Raw r /\
     key = "co2" /\ v = IntField (getCO2_Raw r)) \/
  m !! key = Some v.
Proof.
  unfold co2_fields.
  destruct (hasCO2 cfg && (getCO2_Raw r >? 0)) eqn:E; [| auto]. intros H.
  apply andb_true_iff in E as [Hco2 Hpos]. apply Z.gtb_lt in Hpos.
  apply lookup_insert_Some in H as [[<- <-] | [_ H]]; auto.
Qed.

Lemma sht_fields_origin (cfg : Config) (r : Readings) (m : gmap string FieldValue)
    (key : string) (v : FieldValue) :
  sht_fields cfg r m !! key = Some v ->
  (hasSHT cfg = true /\
     (key = "temp" /\
        v = FloatField (t (periodicFetchData r) + tempOffsetC cfg)%single \/
      key = "rhum" /\ v = FloatField (rh (periodicFetchData r)))) \/
  m !! key = Some v.
Proof.
  unfold sht_fields. destruct (hasSHT cfg); [| auto]. intros H.
  apply lookup_insert_Some in H as [[<- <-] | [_ H]]; [auto |].
  apply lookup_insert_Some in H as [[<- <-] | [_ H]]; auto.
Qed.

Lemma tvoc_fields_origin (cfg : Config) (r : Readings) (m : gmap string FieldValue)
    (key : string) (v : FieldValue) :
  tvoc_fields cfg r m !! key = Some v ->
  (hasTVOC cfg = true /\ key = "tvoc" /\ v = IntField (getTVOC r)) \/
  m !! key = Some v.
Proof.
  unfold tvoc_fields. destruct (hasTVOC cfg); [| auto]. intros H.
  apply lookup_insert_Some in H as [[<- <-] | [_ H]]; auto.
Qed.

Lemma cycle_fields_origin (cfg : Config) (r : Readings) (key : string)
    (v : FieldValue) :
  cycle_fields cfg r !! key = Some v ->
  (hasPM cfg = true /\
     (key = "pm2" /\ v = IntField (getPM2_Raw r) \/
      key = "aqi" /\ v = IntField (PM_TO_AQI_US (getPM2_Raw r)))) \/
  (hasCO2 cfg = true /\ 0 < getCO2_Raw r /\
     key = "co2" /\ v = IntField (getCO2_Raw r)) \/
  (hasSHT cfg = true /\
     (key = "temp" /\
        v = FloatField (t (periodicFetchData r) + tempOffsetC cfg)%single \/
      key = "rhum" /\ v = FloatField (rh (periodicFetchData r)))) \/
  (hasTVOC cfg = true /\ key = "tvoc" /\ v = IntField (getTVOC r)).
Proof.
  unfold cycle_fields. intros H.
  apply tvoc_fields_origin in H as [H | H]; [auto |].
  apply sht_fields_origin in H as [H | H]; [auto |].
  apply co2_fields_origin in H as [H | H]; [auto |].
  apply pm_fields_origin in H as [H | H]; [auto |].
  rewrite lookup_empty in H. discriminate.
Qed.

(** ** The point *)

Lemma addFields_measurement (l : list (string * FieldValue)) (p : Point) :
  measurement (addFields l p) = measurement p.
Proof.
  revert p. induction l as [| kv l IH]; intros p; [reflexivity |].
  cbn [addFields foldl]. fold (addFields l (addField kv.1 kv.2 p)).
  rewrite IH. reflexivity.
Qed.

Lemma addFields_origin (l : list (string * FieldValue)) (p : Point)
    (key : string) (v : FieldValue) :
  fields (addFields l p) !! key = Some v ->
  (key, v) ∈ l \/ fields p !! key = Some v.
Proof.
  revert p. induction l as [| [k x] l IH]; intros p H; [auto |].
  cbn [addFields foldl] in H. fold (addFields l (addField k x p)) in H.
  apply IH in H as [H | H].
  - left. by apply list_elem_of_further.
  - cbn in H. apply lookup_insert_Some in H as [[<- <-] | [_ H]]; [| auto].
    left. apply list_elem_of_here.
Qed.

(** ** The screens of a cycle *)

Lemma flushes_app (d : Oled) (l1 l2 : list Event) :
  flushes d (l1 ++ l2) = flushes d l1 ++ flushes (oled_after d l1) l2.
Proof.
  revert d. induction l1 as [| e l1 IH]; intros d; [reflexivity |].
  cbn [app flushes oled_after fold_left]. fold (oled_after (oled_event d e) l1).
  destruct e as [| | | [] | | | | | | | | | | | | | | | | | |]; rewrite IH; reflexivity.
Qed.

Lemma flushes_pm (d : Oled) (cfg : Config) (r : Readings) :
  flushes d (pm_calls cfg r) = pm_screens cfg r.
Proof. unfold pm_calls, pm_screens. destruct (hasPM cfg); reflexivity. Qed.

Lemma flushes_co2 (d : Oled) (cfg : Config) (r : Readings) :
  flushes d (co2_calls cfg r) = co2_screens cfg r.
Proof. unfold co2_calls, co2_screens. destruct (hasCO2 cfg); reflexivity. Qed.

Lemma flushes_sht (d : Oled) (cfg : Config) (r : Readings) :
  flushes d (sht_calls cfg r) = sht_screens cfg r.
Proof. unfold sht_calls, sht_screens. destruct (hasSHT cfg); reflexivity. Qed.

Lemma flushes_tvoc (d : Oled) (cfg : Config) (r : Readings) :
  flushes d (tvoc_calls cfg r) = tvoc_screens cfg r.
Proof. unfold tvoc_calls, tvoc_screens. destruct (hasTVOC cfg); reflexivity. Qed.

(** One call of [loop()] sends one screen per active capability to the
    panel, in the order PM, CO2, SHT, TVOC. *)
Lemma flushes_cycle (d : Oled) (cfg : Config) (r : Readings) (p : Point) :
  flushes d (calls (loop cfg r p)) =
    pm_screens cfg r ++ co2_screens cfg r ++ sht_screens cfg r ++ tvoc_screens cfg r.
Proof.
  rewrite loop_run. cbn [calls]. unfold cycle_calls, sensor_calls.
  rewrite !flushes_app, flushes_pm, flushes_co2, flushes_sht, flushes_tvoc.
  assert (H0 : forall d', flushes d' (if displayData cfg then [] else [Display DdisplayOff]) = [])
    by (intros d'; destruct (displayData cfg); reflexivity).
  assert (H1 : forall d', flushes d' (if hasTVOC cfg then [SgpMeasure false] else []) = [])
    by (intros d'; destruct (hasTVOC cfg); reflexivity).
  assert (H2 : forall d' q, flushes d' (send_calls cfg r q) = []).
  { intros d' q. unfold send_calls, failure_log.
    destruct (connectWIFI cfg), (writePoint r); reflexivity. }
  rewrite H0, H1, H2, !app_nil_r. reflexivity.
Qed.

(** ** One cycle *)

(** C2.  In a cycle with the CO2 sensor active, a reading of 0 or less (the
    driver's -1, say) leaves no ["co2"] field in the point at the end of the
    cycle, a positive reading leaves the field with that value, and either
    way the cycle sends the screen ["CO2"] / reading to the panel exactly
    once, between the screen of the particle sensor and those of the
    temperature and TVOC sensors. *)
Theorem co2_sentinel_is_shown_not_reported (cfg : Config) (r : Readings)
    (p : Point) (d : Oled) :
  hasCO2 cfg = true ->
  (getCO2_Raw r <= 0 -> fields (point (loop cfg r p)) !! "co2" = None) /\
  (0 < getCO2_Raw r ->
   fields (point (loop cfg r p)) !! "co2" = Some (IntField (getCO2_Raw r))) /\
  flushes d (calls (loop cfg r p)) =
    pm_screens cfg r ++ [two_lines "CO2" (String_int (getCO2_Raw r))]
      ++ sht_screens cfg r ++ tvoc_screens cfg r /\
  occurrences is_getCO2 (calls (loop cfg r p)) = 1%nat.
Proof.
  intros Hco2. rewrite flushes_cycle, loop_run. cbn [point calls fields cycle_point].
  rewrite cycle_fields_co2, Hco2. cbn [andb].
  repeat split.
  - intros Hbad. destruct (Z.gtb_spec (getCO2_Raw r) 0); [lia | reflexivity].
  - intros Hgood. destruct (Z.gtb_spec (getCO2_Raw r) 0); [reflexivity | lia].
  - unfold co2_screens. rewrite Hco2. reflexivity.
  - unfold cycle_calls, sensor_calls, send_calls, failure_log, pm_calls,
      co2_calls, sht_calls, tvoc_calls. rewrite Hco2.
    destruct (displayData cfg), (hasTVOC cfg), (hasPM cfg), (hasSHT cfg),
      (connectWIFI cfg), (writePoint r); reflexivity.
Qed.

(** C3.  The point is built afresh in every cycle.  On the point itself:
    clearing, adding any fields, clearing again and adding fields leaves
    the measurement name and only fields added after the second clearing.
    In [loop]: the point after a cycle, which is the point [writePoint]
    receives, holds the same fields whatever it held before, and each of
    them was added in this cycle by an active capability (["co2"] by a
    positive reading); so after any number of cycles it holds the fields of
    the last cycle only. *)
Theorem point_is_cycle_scoped (cfg : Config) (sensors : nat -> Readings)
    (r : Readings) (p : Point) (before after : list (string * FieldValue))
    (k n : nat) :
  (measurement (addFields after (clearFields (addFields before (clearFields p))))
     = measurement p /\
   forall key v,
     fields (addFields after (clearFields (addFields before (clearFields p))))
       !! key = Some v ->
     (key, v) ∈ after) /\
  (measurement (point (loop cfg r p)) = measurement p /\
   point (loop cfg r p) = point (loop cfg r (clearFields p)) /\
   List.filter is_writePoint (calls (loop cfg r p)) =
     (if connectWIFI cfg then [WritePoint (point (loop cfg r p))] else []) /\
   forall key v,
     fields (point (loop cfg r p)) !! key = Some v ->
     (hasPM cfg = true /\
        (key = "pm2" /\ v = IntField (getPM2_Raw r) \/
         key = "aqi" /\ v = IntField (PM_TO_AQI_US (getPM2_Raw r)))) \/
     (hasCO2 cfg = true /\ 0 < getCO2_Raw r /\
        key = "co2" /\ v = IntField (getCO2_Raw r)) \/
     (hasSHT cfg = true /\
        (key = "temp" /\
           v = FloatField (t (periodicFetchData r) + tempOffsetC cfg)%single \/
         key = "rhum" /\ v = FloatField (rh (periodicFetchData r)))) \/
     (hasTVOC cfg = true /\ key = "tvoc" /\ v = IntField (getTVOC r))) /\
  fields (point (loops cfg sensors k (S n) p)) = cycle_fields cfg (sensors (k + n)%nat).
Proof.
  split; [split |].
  - rewrite addFields_measurement. cbn. rewrite addFields_measurement. reflexivity.
  - intros key v H. apply addFields_origin in H as [H | H]; [assumption |].
    cbn in H. rewrite lookup_empty in H. discriminate.
  - rewrite !loop_run, loops_run. cbn [point calls fields cycle_point].
    repeat split.
    + unfold cycle_calls, sensor_calls, send_calls, failure_log, pm_calls,
        co2_calls, sht_calls, tvoc_calls, cycle_point.
      destruct (displayData cfg), (hasTVOC cfg), (hasPM cfg), (hasCO2 cfg),
        (hasSHT cfg), (connectWIFI cfg), (writePoint r); reflexivity.
    + apply cycle_fields_origin.
Qed.

(** C4 (as amended).  With the particle and the temperature sensor as the
    only capabilities, [pm02 = 40], no temperature offset, 20 degrees
    Celsius and Fahrenheit display: the AQI of 40 is 111, the first line of
    the temperature screen is [String] of the [float] 68, and the fields of
    the point are exactly pm2 = 40, aqi = 111, temp = 20 and rhum = the
    humidity read. *)
Theorem end_to_end_pm_and_temperature (cfg : Config) (r : Readings) (p : Point)
    (d : Oled) :
  hasPM cfg = true -> hasCO2 cfg = false -> hasSHT cfg = true ->
  hasTVOC cfg = false -> inF cfg = true -> tempOffsetC cfg = float_of_int 0 ->
  getPM2_Raw r = 40 -> t (periodicFetchData r) = float_of_int 20 ->
  PM_TO_AQI_US 40 = 111 /\
  flushes d (calls (loop cfg r p)) =
    [ (if inUSaqi cfg then two_lines "AQI" "111" else two_lines "PM2" "40");
      two_lines (String_float (float_of_int 68))
        (String_float (rh (periodicFetchData r)) +:+ "%") ] /\
  fields (point (loop cfg r p)) =
    {[ "pm2" := IntField 40; "aqi" := IntField 111;
       "temp" := FloatField (float_of_int 20);
       "rhum" := FloatField (rh (periodicFetchData r)) ]}.
Proof.
  intros Hpm Hco2 Hsht Htvoc Hf Hoff Hpm2 Ht.
  assert (Haqi : PM_TO_AQI_US 40 = 111) by (vm_compute; reflexivity).
  split; [exact Haqi |]. split.
  - rewrite flushes_cycle.
    unfold pm_screens, co2_screens, sht_screens, tvoc_screens, pm_shown, sht_shown,
      temp_shown, actualTemp.
    rewrite Hpm, Hco2, Hsht, Htvoc, Hf, Hoff, Hpm2, Ht, Haqi.
    destruct (inUSaqi cfg); reflexivity.
  - rewrite loop_run. cbn [point fields cycle_point].
    unfold cycle_fields, tvoc_fields, sht_fields, co2_fields, pm_fields.
    rewrite Hpm, Hco2, Hsht, Htvoc, Hoff, Hpm2, Ht, Haqi. cbn [andb].
    generalize (rh (periodicFetchData r)). intros h.
    vm_compute. reflexivity.
Qed.

(** C4, as stated, fails: the AQI of 40 is not 104. *)
Lemma PM_TO_AQI_US_40_is_not_104 : PM_TO_AQI_US 40 <> 104.
Proof. vm_compute. discriminate. Qed.

(** C10.  Two configurations that differ in [inUSaqi], [inF] and
    [displayData] only leave the same point after a cycle under the same
    readings, and hand the same point to [writePoint]; the ["temp"] field is
    the Celsius reading plus the offset whatever [inF] says, and ["pm2"]
    and ["aqi"] are both there whenever the particle sensor is active,
    whatever [inUSaqi] says. *)
Theorem point_ignores_display_settings (cfg cfg' : Config) (r : Readings)
    (p : Point) :
  same_but_display cfg cfg' ->
  point (loop cfg' r p) = point (loop cfg r p) /\
  List.filter is_writePoint (calls (loop cfg' r p)) =
    List.filter is_writePoint (calls (loop cfg r p)) /\
  (hasSHT cfg = true ->
   fields (point (loop cfg' r p)) !! "temp" =
     Some (FloatField (t (periodicFetchData r) + tempOffsetC cfg)%single)) /\
  (hasPM cfg = true ->
   fields (point (loop cfg' r p)) !! "pm2" = Some (IntField (getPM2_Raw r)) /\
   fields (point (loop cfg' r p)) !! "aqi" =
     Some (IntField (PM_TO_AQI_US (getPM2_Raw r)))).
Proof.
  intros (Hpm & Hco2 & Hsht & Htvoc & Hoff & Hwifi).
  assert (Hfields : cycle_fields cfg' r = cycle_fields cfg r).
  { unfold cycle_fields, tvoc_fields, sht_fields, co2_fields, pm_fields.
    rewrite Hpm, Hco2, Hsht, Htvoc, Hoff. reflexivity. }
  rewrite !loop_run. cbn [point calls].
  assert (Hpoint : cycle_point cfg' r p = cycle_point cfg r p)
    by (unfold cycle_point; rewrite Hfields; reflexivity).
  repeat split.
  - exact Hpoint.
  - unfold cycle_calls, sensor_calls, send_calls, failure_log, pm_calls,
      co2_calls, sht_calls, tvoc_calls.
    rewrite Hpm, Hco2, Hsht, Htvoc, Hwifi, Hpoint.
    destruct (displayData cfg), (displayData cfg'), (hasTVOC cfg), (hasPM cfg),
      (hasCO2 cfg), (hasSHT cfg), (connectWIFI cfg), (writePoint r); reflexivity.
  - cbn. rewrite Hfields. apply cycle_fields_temp.
  - cbn. rewrite Hfields. apply cycle_fields_pm. assumption.
  - cbn. rewrite Hfields. apply cycle_fields_pm. assumption.
Qed.

(** ** Counting calls *)

Lemma occurrences_app (f : Event -> bool) (l1 l2 : list Event) :
  occurrences f (l1 ++ l2) = (occurrences f l1 + occurrences f l2)%nat.
Proof. unfold occurrences. rewrite List.filter_app, length_app. reflexivity. Qed.

(** The sensor stages neither write the point, nor sleep the long sleep,
    nor restart the chip, nor initialise the display. *)
Lemma sensor_calls_quiet (cfg : Config) (r : Readings) :
  existsb (fun e => is_writePoint e || is_sleep e || is_restart e || is_display_init e)
    (sensor_calls cfg r) = false.
Proof.
  unfold sensor_calls, pm_calls, co2_calls, sht_calls, tvoc_calls.
  destruct (hasTVOC cfg), (hasPM cfg), (hasCO2 cfg), (hasSHT cfg); reflexivity.
Qed.

Lemma existsb_weaken (f g : Event -> bool) (l : list Event) :
  (forall e, g e = true -> f e = true) ->
  existsb f l = false -> existsb g l = false.
Proof.
  intros Hfg Hf. apply not_true_is_false. intros Hg.
  apply existsb_exists in Hg as (e & Hin & He).
  assert (Ht : existsb f l = true) by (apply existsb_exists; eauto).
  congruence.
Qed.

Lemma existsb_occurrences (f : Event -> bool) (l : list Event) :
  existsb f l = false -> occurrences f l = 0%nat.
Proof.
  unfold occurrences. induction l as [| e l IH]; [reflexivity |].
  cbn. destruct (f e); cbn; [discriminate | exact IH].
Qed.

Lemma sensor_calls_without (g : Event -> bool) (cfg : Config) (r : Readings) :
  (forall e, g e = true ->
     is_writePoint e || is_sleep e || is_restart e || is_display_init e = true) ->
  existsb g (sensor_calls cfg r) = false.
Proof. intros H. eapply existsb_weaken; [exact H | apply sensor_calls_quiet]. Qed.

(** The calls of [setup] before the network neither restart the chip nor
    sample nor write. *)
Lemma init_calls_quiet (cfg : Config) (b : Boot) :
  existsb (fun e => is_restart e || is_sampling e) (init_calls cfg b) = false.
Proof.
  unfold init_calls, sgp_calls.
  destruct (hasTVOC cfg), (isConnected b), (measureTest b), (hasPM cfg),
    (hasCO2 cfg), (hasSHT cfg); reflexivity.
Qed.

Lemma init_calls_without (g : Event -> bool) (cfg : Config) (b : Boot) :
  (forall e, g e = true -> is_restart e || is_sampling e = true) ->
  occurrences g (init_calls cfg b) = 0%nat.
Proof.
  intros H. apply existsb_occurrences.
  eapply existsb_weaken; [exact H | apply init_calls_quiet].
Qed.

(** ** Reporting and sleeping *)

(** C7.  When [writePoint] fails, the cycle returns as it does when the
    write succeeds, with the same point; it makes the very calls of the
    successful cycle, with the two lines of the failure message between the
    one [writePoint] and the sleep of 48 s; it does not restart; and the
    next call of [loop()] runs after it. *)
Theorem write_failure_is_only_logged (cfg : Config) (r next : Readings)
    (p : Point) :
  connectWIFI cfg = true -> writePoint r = false ->
  outcome (loop cfg r p) = Returns tt /\
  outcome (loop cfg (set_writePoint true r) p) = Returns tt /\
  point (loop cfg r p) = point (loop cfg (set_writePoint true r) p) /\
  (exists before,
     existsb is_writePoint before = false /\
     calls (loop cfg (set_writePoint true r) p) =
       before ++ [WritePoint (point (loop cfg r p)); Delay 48000] /\
     calls (loop cfg r p) =
       before ++ [WritePoint (point (loop cfg r p));
                  SerialPrint "InfluxDB write failed: ";
                  SerialPrintln (write_error r);
                  Delay 48000]) /\
  existsb is_restart (calls (loop cfg r p)) = false /\
  (loop cfg r ;; loop cfg next) p =
    {| outcome := Returns tt;
       point := point (loop cfg next p);
       calls := calls (loop cfg r p) ++ calls (loop cfg next p) |}.
Proof.
  intros Hwifi Hfail. rewrite !loop_run. cbn [outcome point calls].
  repeat split.
  - exists ((if displayData cfg then [] else [Display DdisplayOff])
              ++ sensor_calls cfg r
              ++ [SerialPrint "Writing: ";
                  SerialPrintln (toLineProtocol (cycle_point cfg r p))]).
    repeat split.
    + rewrite !existsb_app, sensor_calls_without.
      * destruct (displayData cfg); reflexivity.
      * intros e He. rewrite He. reflexivity.
    + unfold cycle_calls, send_calls, failure_log. rewrite Hwifi.
      cbn [writePoint set_writePoint]. rewrite <- !app_assoc. reflexivity.
    + unfold cycle_calls, send_calls, failure_log. rewrite Hwifi, Hfail.
      rewrite <- !app_assoc. reflexivity.
  - unfold cycle_calls, send_calls, failure_log. rewrite Hwifi, Hfail.
    rewrite !existsb_app, sensor_calls_without.
    + destruct (displayData cfg); reflexivity.
    + intros e He. rewrite He, !orb_true_r. reflexivity.
  - apply (seq_run _ _ _ tt (cycle_point cfg r p)); [apply loop_run |].
    rewrite loop_run. reflexivity.
Qed.

(** C8 (as amended).  The calls of [n] cycles are the calls of each, one
    after the other, for every [n].  With the network enabled every cycle
    ends, after the sensor stages and the write of the point (and the
    failure message, if the write failed), with the one sleep of 48 s.  With
    the network disabled a cycle ends after the sensor stages: it neither
    writes nor sleeps the 48 s, and the next cycle follows at once. *)
Theorem sleep_follows_reporting (cfg : Config) (sensors : nat -> Readings)
    (k n : nat) (p : Point) :
  outcome (loops cfg sensors k n p) = Returns tt /\
  calls (loops cfg sensors k n p) =
    concat (map (fun i => calls (loop cfg (sensors i) p)) (seq k n)) /\
  forall r,
    (connectWIFI cfg = true ->
     calls (loop cfg r p) =
       (if displayData cfg then [] else [Display DdisplayOff])
         ++ sensor_calls cfg r
         ++ [SerialPrint "Writing: ";
             SerialPrintln (toLineProtocol (point (loop cfg r p)));
             WritePoint (point (loop cfg r p))]
         ++ failure_log r ++ [Delay 48000] /\
     occurrences is_sleep (calls (loop cfg r p)) = 1%nat) /\
    (connectWIFI cfg = false ->
     calls (loop cfg r p) =
       (if displayData cfg then [] else [Display DdisplayOff])
         ++ sensor_calls cfg r /\
     occurrences is_sleep (calls (loop cfg r p)) = 0%nat /\
     occurrences is_writePoint (calls (loop cfg r p)) = 0%nat).
Proof.
  rewrite loops_run. cbn [outcome calls]. split; [reflexivity |]. split.
  { unfold loops_calls. f_equal. apply map_ext. intros i.
    rewrite loop_run. reflexivity. }
  intros r. rewrite loop_run. cbn [point calls]. unfold cycle_calls, send_calls.
  assert (Hsensors : forall g,
             (forall e, g e = true ->
                is_writePoint e || is_sleep e || is_restart e || is_display_init e
                  = true) ->
             occurrences g ((if displayData cfg then [] else [Display DdisplayOff])
                              ++ sensor_calls cfg r) = 0%nat).
  { intros g Hg. apply existsb_occurrences.
    rewrite existsb_app, sensor_calls_without by exact Hg.
    destruct (displayData cfg); [reflexivity |].
    cbn. pose proof (Hg (Display DdisplayOff)) as H0.
    destruct (g (Display DdisplayOff)); [| reflexivity].
    specialize (H0 eq_refl). cbn in H0. discriminate H0. }
  split; intros Hwifi; rewrite Hwifi.
  - split; [reflexivity |].
    rewrite app_assoc, occurrences_app, Hsensors.
    + unfold failure_log. destruct (writePoint r); reflexivity.
    + intros e He. rewrite He, !orb_true_r. reflexivity.
  - rewrite app_nil_r. split; [reflexivity |]. split; apply Hsensors.
    + intros e He. rewrite He, !orb_true_r. reflexivity.
    + intros e He. rewrite He. reflexivity.
Qed.

(** ** The display *)

Lemma powered_stays_off (d : Oled) (l : list Event) :
  powered d = false -> existsb is_display_init l = false ->
  powered (oled_after d l) = false.
Proof.
  revert d. induction l as [| e l IH]; intros d Hd Hl; [exact Hd |].
  cbn [existsb] in Hl. apply orb_false_iff in Hl as [He Hl].
  cbn [oled_after fold_left]. fold (oled_after (oled_event d e) l).
  apply IH; [| exact Hl].
  destruct e as [| | | [] | | | | | | | | | | | | | | | | | |];
    cbn in He |- *; first [exact Hd | reflexivity | discriminate He].
Qed.

(** C9 (as amended).  With [displayData] false, every screen rendered in a
    cycle, that is by a call of [loop()], stays unseen: the cycle first
    switches the panel off, and the panel stays off and shows nothing after
    each call of the cycle, the clearing, drawing and flushing of
    [showTextRectangle] included.  The flag changes nothing else: the cycle
    with the flag true makes the same calls but the switching off, returns
    alike and leaves the same point.  (The banner of [setup] is outside the
    cycles, and the flag does not govern it.) *)
Theorem display_off_shows_nothing (cfg : Config) (r : Readings) (p : Point)
    (d : Oled) :
  displayData cfg = false ->
  (forall l1 l2,
     calls (loop cfg r p) = l1 ++ l2 -> l1 <> [] ->
     powered (oled_after d l1) = false /\ visible (oled_after d l1) = []) /\
  calls (loop cfg r p) =
    Display DdisplayOff :: calls (loop (set_displayData true cfg) r p) /\
  point (loop cfg r p) = point (loop (set_displayData true cfg) r p) /\
  outcome (loop cfg r p) = outcome (loop (set_displayData true cfg) r p).
Proof.
  intros Hoff. rewrite !loop_run. cbn [outcome point calls].
  assert (Hcalls : cycle_calls cfg r p =
                     Display DdisplayOff :: cycle_calls (set_displayData true cfg) r p).
  { unfold cycle_calls. rewrite Hoff. reflexivity. }
  split; [| split; [exact Hcalls | split; reflexivity]].
  intros l1 l2 Hsplit Hne. rewrite Hcalls in Hsplit.
  destruct l1 as [| e l1]; [contradiction |].
  injection Hsplit as <- Hrest.
  assert (Hoffs : powered (oled_after d (Display DdisplayOff :: l1)) = false).
  { cbn [oled_after fold_left].
    fold (oled_after (oled_event d (Display DdisplayOff)) l1).
    apply powered_stays_off; [reflexivity |].
    assert (Hall : existsb is_display_init (l1 ++ l2) = false).
    { rewrite <- Hrest. unfold cycle_calls, send_calls, failure_log.
      cbn [displayData set_displayData app].
      rewrite existsb_app, sensor_calls_without.
      - destruct (connectWIFI (set_displayData true cfg)), (writePoint r); reflexivity.
      - intros e He. rewrite He, !orb_true_r. reflexivity. }
    rewrite existsb_app in Hall. apply orb_false_iff in Hall as [H1 _]. exact H1. }
  split; [exact Hoffs |]. unfold visible. rewrite Hoffs. reflexivity.
Qed.

(** ** Start-up *)

Lemma setup_outcome_restarts (cfg : Config) (b : Boot) :
  setup_outcome cfg b = Restarts <-> connectWIFI cfg = true /\ autoConnect b = false.
Proof.
  unfold setup_outcome.
  destruct (connectWIFI cfg), (autoConnect b), (validateConnection b); cbn;
    intuition discriminate.
Qed.

(** C5.  When the network is enabled and the join does not succeed within
    its timeout, the execution logs the failure, waits 3 s and restarts the
    chip: it makes exactly one call of [ESP.restart()], which ends it, and
    whatever the number of calls of [loop()] one waits for, none happens: no
    sensor is sampled and [writePoint] is never called. *)
Theorem join_timeout_restarts (cfg : Config) (b : Boot)
    (sensors : nat -> Readings) (n : nat) :
  connectWIFI cfg = true -> autoConnect b = false ->
  outcome (sketch cfg b sensors n) = Restarts /\
  calls (sketch cfg b sensors n) =
    init_calls cfg b ++ join_calls b
      ++ [SerialPrintln "failed to connect and hit timeout"; Delay 3000; EspRestart] /\
  occurrences is_restart (calls (sketch cfg b sensors n)) = 1%nat /\
  occurrences is_writePoint (calls (sketch cfg b sensors n)) = 0%nat /\
  occurrences is_sampling (calls (sketch cfg b sensors n)) = 0%nat.
Proof.
  intros Hwifi Hjoin. rewrite sketch_run.
  assert (Ho : setup_outcome cfg b = Restarts)
    by (apply setup_outcome_restarts; auto).
  rewrite Ho. cbn [outcome calls]. unfold setup_calls. rewrite Hwifi, Hjoin.
  split; [reflexivity |]. split; [reflexivity |].
  rewrite !occurrences_app, !init_calls_without.
  - repeat split; reflexivity.
  - intros e He. rewrite He. apply orb_true_r.
  - intros e He. destruct e; try discriminate He; reflexivity.
  - intros e He. rewrite He. reflexivity.
Qed.

(** C6.  When the join does not time out and the validation of the server
    fails, the execution logs the failure and spins in [while(true) {}]:
    however many calls of [loop()] one waits for, it has made the calls of
    [setup] and no other, so no sensor is ever sampled and the chip is
    never restarted.  An execution restarts only when the network is
    enabled and the join timed out. *)
Theorem validation_failure_spins :
  (forall cfg b sensors n,
     (connectWIFI cfg = true -> autoConnect b = true) ->
     validateConnection b = false ->
     outcome (sketch cfg b sensors n) = Spins /\
     calls (sketch cfg b sensors n) =
       init_calls cfg b ++ (if connectWIFI cfg then join_calls b else [])
         ++ [Delay 2000; TimeSync TZ_INFO "pool.ntp.org" "time.nis.gov";
             ValidateConnection; SerialPrint "InfluxDB connection failed: ";
             SerialPrintln (getLastErrorMessage b)] /\
     occurrences is_restart (calls (sketch cfg b sensors n)) = 0%nat /\
     occurrences is_sampling (calls (sketch cfg b sensors n)) = 0%nat) /\
  (forall cfg b sensors n,
     outcome (sketch cfg b sensors n) = Restarts <->
     connectWIFI cfg = true /\ autoConnect b = false).
Proof.
  split.
  - intros cfg b sensors n Hjoin Hvalid. rewrite sketch_run.
    assert (Ho : setup_outcome cfg b = Spins).
    { unfold setup_outcome. rewrite Hvalid.
      destruct (connectWIFI cfg); [rewrite Hjoin by reflexivity |]; reflexivity. }
    rewrite Ho. cbn [outcome calls]. unfold setup_calls, validate_calls.
    rewrite Hvalid.
    assert (Hcalls :
              (if connectWIFI cfg
               then join_calls b ++ (if autoConnect b then validate_calls b else timeout_calls)
               else validate_calls b) =
              (if connectWIFI cfg then join_calls b else []) ++ validate_calls b).
    { destruct (connectWIFI cfg); [rewrite Hjoin by reflexivity |]; reflexivity. }
    unfold validate_calls in Hcalls. rewrite Hvalid in Hcalls. rewrite Hcalls.
    split; [reflexivity |]. split; [reflexivity |].
    rewrite !occurrences_app, !init_calls_without.
    + destruct (connectWIFI cfg); split; reflexivity.
    + intros e He. rewrite He. apply orb_true_r.
    + intros e He. rewrite He. reflexivity.
  - intros cfg b sensors n. rewrite sketch_run, <- setup_outcome_restarts.
    destruct (setup_outcome cfg b) as [[] | |]; cbn; intuition discriminate.
Qed.


(** ** Checking a range of integers *)

Lemma all_from_spec (f : Z -> bool) (fuel : nat) (z : Z) :
  all_from f fuel z = true ->
  forall x, z <= x < z + Z.of_nat fuel -> f x = true.
Proof.
  revert z. induction fuel as [| fuel IH]; intros z H x Hx; [lia |].
  cbn [all_from] in H. apply andb_true_iff in H as [Hz Hrest].
  destruct (Z.eq_dec x z) as [-> | Hne]; [exact Hz |].
  apply (IH (z + 1) Hrest). lia.
Qed.


(** ** More on [PM_TO_AQI_US] *)

Lemma PM_TO_AQI_US_steps :
  all_from (fun z => PM_TO_AQI_US z <=? PM_TO_AQI_US (z + 1)) (Z.to_nat 501) 0 = true.
Proof. vm_compute. reflexivity. Qed.

Lemma PM_TO_AQI_US_step (pm02 : Z) :
  0 <= pm02 < INT_MAX -> PM_TO_AQI_US pm02 <= PM_TO_AQI_US (pm02 + 1).
Proof.
  intros [Hlo Hhi]. destruct (Z.le_gt_cases pm02 500) as [Hle | Hgt].
  - apply Z.leb_le.
    apply (all_from_spec _ _ _ PM_TO_AQI_US_steps pm02).
    rewrite Z2Nat.id; lia.
  - rewrite !PM_TO_AQI_US_clamped by lia. lia.
Qed.

(** X1.  On the readings from 0 on, [PM_TO_AQI_US] never decreases and
    stays between 0 and 500. *)
Theorem PM_TO_AQI_US_monotone (a b : Z) :
  0 <= a -> a <= b -> b <= INT_MAX ->
  0 <= PM_TO_AQI_US a /\ PM_TO_AQI_US a <= PM_TO_AQI_US b /\ PM_TO_AQI_US b <= 500.
Proof.
  intros Ha Hab Hb.
  split; [apply PM_TO_AQI_US_range; lia |].
  split; [| apply PM_TO_AQI_US_range; lia].
  assert (Hk : forall k : nat,
             a + Z.of_nat k <= INT_MAX ->
             PM_TO_AQI_US a <= PM_TO_AQI_US (a + Z.of_nat k)).
  { induction k as [| k IH]; intros Hmax.
    - rewrite Z.add_0_r. lia.
    - rewrite Nat2Z.inj_succ in *.
      replace (a + Z.succ (Z.of_nat k)) with (a + Z.of_nat k + 1) by lia.
      transitivity (PM_TO_AQI_US (a + Z.of_nat k)).
      + apply IH. lia.
      + apply PM_TO_AQI_US_step. lia. }
  specialize (Hk (Z.to_nat (b - a))).
  rewrite Z2Nat.id in Hk by lia.
  replace (a + (b - a)) with b in Hk by lia. apply Hk, Hb.
Qed.

Lemma PM_TO_AQI_US_exact_from_minus_1000 :
  all_from (fun z => PM_TO_AQI_US z =? PM_TO_AQI_US_exact z) (Z.to_nat 1501) (-1000)
    = true.
Proof. vm_compute. reflexivity. Qed.

(** X2.  Rounding to binary64 never shows in the result: for every reading
    from -1000 on, [PM_TO_AQI_US] is the formula in exact arithmetic,
    truncated towards zero.  A negative reading falls in the first band and
    gives the negative index [50 * pm02 / 12]: nothing clamps it at 0. *)
Theorem PM_TO_AQI_US_is_exact (pm02 : Z) :
  -1000 <= pm02 <= INT_MAX ->
  PM_TO_AQI_US pm02 = PM_TO_AQI_US_exact pm02 /\
  (pm02 < 0 -> PM_TO_AQI_US pm02 = Z.quot (50 * pm02) 12).
Proof.
  intros [Hlo Hhi].
  assert (Hexact : PM_TO_AQI_US pm02 = PM_TO_AQI_US_exact pm02).
  { destruct (Z.le_gt_cases pm02 500) as [Hle | Hgt].
    - apply Z.eqb_eq.
      apply (all_from_spec _ _ _ PM_TO_AQI_US_exact_from_minus_1000 pm02).
      rewrite Z2Nat.id; lia.
    - rewrite PM_TO_AQI_US_clamped by lia. unfold PM_TO_AQI_US_exact.
      repeat match goal with
             | |- context [?x <=? ?y] =>
                 destruct (Z.leb_spec x y); [lia |]
             end.
      reflexivity. }
  split; [exact Hexact |].
  intros Hneg. rewrite Hexact. unfold PM_TO_AQI_US_exact.
  destruct (Z.leb_spec pm02 12); [| lia].
  unfold Q_to_int, aqi_band.
  let c := eval vm_compute in (inject_Z (50 - 0) / ((120 # 10) - (0 # 10)))%Q in
  change (inject_Z (50 - 0) / ((120 # 10) - (0 # 10)))%Q with c.
  cbn. rewrite <- (Z.quot_mul_cancel_r (50 * pm02) 12 1000) by lia.
  f_equal; lia.
Qed.

(** A [double] above 500.4 compares above every breakpoint. *)
Lemma double_leb_beyond (x : spec_float) (m : positive) (e : Z) :
  SFltb 500.4%double x = true ->
  e < -44 \/ (e = -44 /\ (m <= 8803129896625766)%positive) ->
  (x <=? S754_finite false m e)%double = false.
Proof.
  unfold double_leb, SFleb, SFltb, SFcompare. intros Hx He.
  assert (He1 : e <= -44) by (destruct He as [H | [H _]]; lia).
  assert (He2 : e = -44 -> (m <= 8803129896625766)%positive).
  { intros E. destruct He as [H | [_ H]]; [exfalso; clear - H E; lia | exact H]. }
  clear He.
  destruct x as [s | s | | s mx ex]; try discriminate Hx.
  - destruct s; [discriminate Hx | reflexivity].
  - destruct s; [discriminate Hx |].
    change (Pos.compare_cont Eq ?a ?b) with (Pos.compare a b) in *.
    destruct (Z.compare_spec (-44) ex) as [Heq | Hlt | Hgt]; try discriminate Hx.
    + subst ex.
      destruct (Pos.compare_spec 8803129896625766 mx) as [Hm | Hm | Hm];
        try discriminate Hx.
      destruct (Z.compare_spec (-44) e) as [Heq | Hlt | Hgt].
      * specialize (He2 (eq_sym Heq)).
        pose proof (Pos.le_lt_trans _ _ _ He2 Hm) as Hmm.
        destruct (Pos.compare_spec mx m) as [Hm' | Hm' | Hm']; [| | reflexivity].
        -- subst m. exfalso. exact (Pos.lt_irrefl _ Hmm).
        -- exfalso. exact (Pos.lt_irrefl _ (Pos.lt_trans _ _ _ Hmm Hm')).
      * exfalso. clear - Hlt He1. lia.
      * reflexivity.
    + destruct (Z.compare_spec ex e) as [Heq | Hlt' | Hgt].
      * exfalso. clear - Heq Hlt He1. lia.
      * exfalso. clear - Hlt' Hlt He1. lia.
      * reflexivity.
Qed.

Lemma PM_TO_AQI_US_double_clamped (x : spec_float) :
  SFltb 500.4%double x = true -> PM_TO_AQI_US_double x = 500.
Proof.
  intros Hx. unfold PM_TO_AQI_US_double.
  rewrite !(double_leb_beyond x)
    by (assumption || (left; lia)
        || (right; split; [reflexivity | vm_compute; discriminate])).
  reflexivity.
Qed.

Lemma PM_TO_AQI_US_interpolation (pm02 : Z) :
  0 <= pm02 <= INT_MAX -> PM_TO_AQI_US pm02 = PM_TO_AQI_US_exact pm02.
Proof.
  intros [Hlo Hhi]. destruct (Z.le_gt_cases pm02 500) as [Hle | Hgt].
  - apply Z.eqb_eq.
    apply (all_from_spec _ _ _ PM_TO_AQI_US_exact_from_minus_1000 pm02).
    rewrite Z2Nat.id; lia.
  - rewrite PM_TO_AQI_US_clamped by lia. unfold PM_TO_AQI_US_exact.
    repeat match goal with
           | |- context [?x <=? ?y] => destruct (Z.leb_spec x y); [lia |]
           end.
    reflexivity.
Qed.

(** C1.  [PM_TO_AQI_US] is the interpolation over the seven bands with
    the upper boundary of each band in the band, truncated to an integer:
    on every reading from 0 on it is the band formula in exact arithmetic,
    truncated, and its formula at the upper boundaries 12.0, 35.4, 55.4,
    150.4, 250.4, 350.4 and 500.4 gives the upper index of the band, 50,
    100, 150, 200, 300, 400 and 500.  Every integer in [0,12) gives a result
    in [0,50), 12 gives 50, and everything above 500.4, as a [double] or as
    an [int], gives 500.  ([pm02] is an [int] in the sketch, promoted to
    [double] in the formula: 35.4 and 500.4 are values of the formula's
    argument, and the integers next below them, 35 and 500, give 99 and
    499.) *)
Theorem PM_TO_AQI_US_interpolates :
  (forall pm02, 0 <= pm02 <= INT_MAX -> PM_TO_AQI_US pm02 = PM_TO_AQI_US_exact pm02) /\
  (forall pm02, 0 <= pm02 < 12 -> 0 <= PM_TO_AQI_US pm02 < 50) /\
  PM_TO_AQI_US 12 = 50 /\
  (PM_TO_AQI_US_double 12.0%double = 50 /\ PM_TO_AQI_US_double 35.4%double = 100 /\
   PM_TO_AQI_US_double 55.4%double = 150 /\ PM_TO_AQI_US_double 150.4%double = 200 /\
   PM_TO_AQI_US_double 250.4%double = 300 /\ PM_TO_AQI_US_double 350.4%double = 400 /\
   PM_TO_AQI_US_double 500.4%double = 500) /\
  (forall x, SFltb 500.4%double x = true -> PM_TO_AQI_US_double x = 500) /\
  (forall pm02, 501 <= pm02 <= INT_MAX -> PM_TO_AQI_US pm02 = 500) /\
  PM_TO_AQI_US 35 = 99 /\ PM_TO_AQI_US 500 = 499.
Proof.
  split; [exact PM_TO_AQI_US_interpolation |].
  split; [exact PM_TO_AQI_US_first_band |].
  split; [vm_compute; reflexivity |].
  split; [repeat split; vm_compute; reflexivity |].
  split; [exact PM_TO_AQI_US_double_clamped |].
  split; [exact PM_TO_AQI_US_clamped |].
  split; vm_compute; reflexivity.
Qed.

(** ** More on one cycle and on many *)

Lemma total_delay_app (l1 l2 : list Event) :
  total_delay (l1 ++ l2) = total_delay l1 + total_delay l2.
Proof.
  induction l1 as [| e l1 IH]; [reflexivity |].
  destruct e; cbn [app total_delay]; rewrite IH; lia.
Qed.

Lemma total_delay_concat {A : Type} (f : A -> list Event) (c : Z) (l : list A) :
  (forall a, total_delay (f a) = c) ->
  total_delay (concat (map f l)) = Z.of_nat (length l) * c.
Proof.
  intros Hf. induction l as [| a l IH]; [reflexivity |].
  cbn [map concat length]. rewrite total_delay_app, Hf, IH. lia.
Qed.

Lemma occurrences_concat {A : Type} (g : Event -> bool) (f : A -> list Event)
    (c : nat) (l : list A) :
  (forall a, occurrences g (f a) = c) ->
  occurrences g (concat (map f l)) = (length l * c)%nat.
Proof.
  intros Hf. induction l as [| a l IH]; [reflexivity |].
  cbn [map concat length]. rewrite occurrences_app, Hf, IH. lia.
Qed.

Lemma cycle_calls_delay (cfg : Config) (r : Readings) (p : Point) :
  total_delay (cycle_calls cfg r p) =
    3000 * active_capabilities cfg + (if connectWIFI cfg then 48000 else 0).
Proof.
  unfold cycle_calls, sensor_calls, active_capabilities.
  rewrite !total_delay_app.
  assert (Hoff : total_delay (if displayData cfg then [] else [Display DdisplayOff]) = 0)
    by (destruct (displayData cfg); reflexivity).
  assert (Hm : total_delay (if hasTVOC cfg then [SgpMeasure false] else []) = 0)
    by (destruct (hasTVOC cfg); reflexivity).
  assert (Hpm : total_delay (pm_calls cfg r) = 3000 * Z.b2z (hasPM cfg))
    by (unfold pm_calls; destruct (hasPM cfg); reflexivity).
  assert (Hco2 : total_delay (co2_calls cfg r) = 3000 * Z.b2z (hasCO2 cfg))
    by (unfold co2_calls; destruct (hasCO2 cfg); reflexivity).
  assert (Hsht : total_delay (sht_calls cfg r) = 3000 * Z.b2z (hasSHT cfg))
    by (unfold sht_calls; destruct (hasSHT cfg); reflexivity).
  assert (Htvoc : total_delay (tvoc_calls cfg r) = 3000 * Z.b2z (hasTVOC cfg))
    by (unfold tvoc_calls; destruct (hasTVOC cfg); reflexivity).
  assert (Hsend : total_delay (send_calls cfg r (cycle_point cfg r p)) =
                    if connectWIFI cfg then 48000 else 0).
  { unfold send_calls, failure_log.
    destruct (connectWIFI cfg), (writePoint r); reflexivity. }
  rewrite Hoff, Hm, Hpm, Hco2, Hsht, Htvoc, Hsend. lia.
Qed.

(** X3.  One call of [loop()] spends 3 s in [delay] for each active
    capability and, with the network enabled, 48 s more, whatever the
    sensors and the write return; [n] calls spend [n] times as much.  With
    the shipped parameters that is 60 s in [delay] in each cycle; the time
    of the sensor reads, of the display and of [writePoint] comes on top. *)
Theorem delay_per_cycle (cfg : Config) (sensors : nat -> Readings) (r : Readings)
    (k n : nat) (p : Point) :
  total_delay (calls (loop cfg r p)) =
    3000 * active_capabilities cfg + (if connectWIFI cfg then 48000 else 0) /\
  total_delay (calls (loops cfg sensors k n p)) =
    Z.of_nat n *
      (3000 * active_capabilities cfg + (if connectWIFI cfg then 48000 else 0)) /\
  total_delay (calls (loop shipped r p)) = 60000.
Proof.
  rewrite !loop_run, loops_run. cbn [calls]. split; [apply cycle_calls_delay |].
  split; [| rewrite cycle_calls_delay; reflexivity].
  unfold loops_calls.
  rewrite (total_delay_concat _
             (3000 * active_capabilities cfg + (if connectWIFI cfg then 48000 else 0))).
  - rewrite length_seq. reflexivity.
  - intros i. apply cycle_calls_delay.
Qed.

Lemma cycle_calls_writes (cfg : Config) (r : Readings) (p : Point) :
  List.filter is_writePoint (cycle_calls cfg r p) =
    if connectWIFI cfg then [WritePoint (cycle_point cfg r p)] else [].
Proof.
  unfold cycle_calls, send_calls, failure_log.
  rewrite !List.filter_app.
  assert (Hs : List.filter is_writePoint (sensor_calls cfg r) = []).
  { pose proof (sensor_calls_without is_writePoint cfg r) as H.
    assert (He : existsb is_writePoint (sensor_calls cfg r) = false).
    { apply H. intros e He. rewrite He. reflexivity. }
    clear H. induction (sensor_calls cfg r) as [| e l IH]; [reflexivity |].
    cbn in He |- *. apply orb_false_iff in He as [He1 He2].
    rewrite He1. apply IH, He2. }
  rewrite Hs.
  destruct (displayData cfg), (connectWIFI cfg), (writePoint r); reflexivity.
Qed.

(** X4.  [n] calls of [loop()] write [n] points with the network enabled
    and none without, whether the writes succeed or fail; the point of
    each write is the point of its own cycle. *)
Theorem one_write_per_cycle (cfg : Config) (sensors : nat -> Readings)
    (k n : nat) (p : Point) :
  List.filter is_writePoint (calls (loops cfg sensors k n p)) =
    (if connectWIFI cfg
     then map (fun i => WritePoint (cycle_point cfg (sensors i) p)) (seq k n)
     else []) /\
  occurrences is_writePoint (calls (loops cfg sensors k n p)) =
    (if connectWIFI cfg then n else 0%nat).
Proof.
  rewrite loops_run. cbn [calls]. unfold loops_calls.
  assert (Hall : forall l : list nat,
             List.filter is_writePoint
               (concat (map (fun i => cycle_calls cfg (sensors i) p) l)) =
             if connectWIFI cfg
             then map (fun i => WritePoint (cycle_point cfg (sensors i) p)) l
             else []).
  { induction l as [| i l IH].
    - destruct (connectWIFI cfg); reflexivity.
    - cbn [map concat]. rewrite List.filter_app, cycle_calls_writes, IH.
      destruct (connectWIFI cfg); reflexivity. }
  split; [apply Hall |].
  unfold occurrences. rewrite Hall.
  destruct (connectWIFI cfg); [| reflexivity].
  rewrite length_map, length_seq. reflexivity.
Qed.

Lemma cycle_calls_reads (cfg : Config) (r : Readings) (p : Point) :
  occurrences is_getPM2 (cycle_calls cfg r p) = Nat.b2n (hasPM cfg) /\
  occurrences is_getCO2 (cycle_calls cfg r p) = Nat.b2n (hasCO2 cfg) /\
  occurrences is_fetchData (cycle_calls cfg r p) = Nat.b2n (hasSHT cfg) /\
  occurrences is_getTVOC (cycle_calls cfg r p) = Nat.b2n (hasTVOC cfg) /\
  occurrences is_sgpMeasure (cycle_calls cfg r p) = Nat.b2n (hasTVOC cfg).
Proof.
  unfold cycle_calls, sensor_calls, send_calls, failure_log, pm_calls, co2_calls,
    sht_calls, tvoc_calls.
  destruct (displayData cfg), (hasTVOC cfg), (hasPM cfg), (hasCO2 cfg),
    (hasSHT cfg), (connectWIFI cfg), (writePoint r); repeat split; reflexivity.
Qed.

(** X5.  Each call of [loop()] reads every active sensor exactly once and
    an inactive sensor never: there is no second try, whatever the first
    returned; so [n] calls read each active sensor [n] times. *)
Theorem one_read_per_sensor_per_cycle (cfg : Config) (sensors : nat -> Readings)
    (k n : nat) (p : Point) :
  occurrences is_getPM2 (calls (loops cfg sensors k n p)) = (n * Nat.b2n (hasPM cfg))%nat /\
  occurrences is_getCO2 (calls (loops cfg sensors k n p)) = (n * Nat.b2n (hasCO2 cfg))%nat /\
  occurrences is_fetchData (calls (loops cfg sensors k n p)) = (n * Nat.b2n (hasSHT cfg))%nat /\
  occurrences is_getTVOC (calls (loops cfg sensors k n p)) = (n * Nat.b2n (hasTVOC cfg))%nat /\
  occurrences is_sgpMeasure (calls (loops cfg sensors k n p)) = (n * Nat.b2n (hasTVOC cfg))%nat.
Proof.
  rewrite loops_run. cbn [calls]. unfold loops_calls.
  assert (Hn : length (seq k n) = n) by apply length_seq.
  repeat split;
    (erewrite occurrences_concat; [rewrite Hn; reflexivity |];
     intros i; apply cycle_calls_reads).
Qed.

(** X6.  The names of the fields after a cycle are fixed by the active
    capabilities and by the sign of the CO2 reading alone: the readings of
    the particle, temperature and TVOC sensors are reported whatever they
    are, error codes included.  There are at most six fields. *)
Theorem cycle_field_names (cfg : Config) (r : Readings) (p : Point) :
  dom (fields (point (loop cfg r p))) = field_names cfg r /\
  (size (fields (point (loop cfg r p))) <= 6)%nat.
Proof.
  rewrite loop_run. cbn [point fields cycle_point].
  assert (Hdom : dom (cycle_fields cfg r) = field_names cfg r).
  { unfold cycle_fields, tvoc_fields, sht_fields, co2_fields, pm_fields, field_names.
    destruct (hasTVOC cfg), (hasSHT cfg), (hasCO2 cfg && (getCO2_Raw r >? 0)),
      (hasPM cfg); rewrite ?dom_insert_L, ?dom_empty_L; set_solver. }
  split; [exact Hdom |].
  rewrite <- size_dom, Hdom. unfold field_names.
  destruct (hasTVOC cfg), (hasSHT cfg), (hasCO2 cfg && (getCO2_Raw r >? 0)),
    (hasPM cfg); vm_compute; lia.
Qed.

(** ** More on the display *)

Lemma oled_after_app (d : Oled) (l1 l2 : list Event) :
  oled_after d (l1 ++ l2) = oled_after (oled_after d l1) l2.
Proof. unfold oled_after. apply fold_left_app. Qed.

Lemma oled_after_no_display (d : Oled) (l : list Event) :
  existsb is_display l = false -> oled_after d l = d /\ flushes d l = [].
Proof.
  revert d. induction l as [| e l IH]; intros d H; [split; reflexivity |].
  cbn [existsb] in H. apply orb_false_iff in H as [He Hl].
  destruct e; try discriminate He; apply (IH d Hl).
Qed.

Lemma powered_kept (d : Oled) (l : list Event) :
  existsb (fun e => is_display_init e || is_displayOff e) l = false ->
  powered (oled_after d l) = powered d.
Proof.
  revert d. induction l as [| e l IH]; intros d H; [reflexivity |].
  cbn [existsb] in H. apply orb_false_iff in H as [He Hl].
  cbn [oled_after fold_left]. fold (oled_after (oled_event d e) l).
  rewrite (IH _ Hl).
  destruct e as [| | | [] | | | | | | | | | | | | | | | | | |];
    try reflexivity; discriminate He.
Qed.

Lemma panel_after (d : Oled) (l : list Event) :
  existsb is_display_init l = false ->
  panel (oled_after d l) = default (panel d) (last (flushes d l)).
Proof.
  revert d. induction l as [| e l IH]; intros d H; [reflexivity |].
  cbn [existsb] in H. apply orb_false_iff in H as [He Hl].
  cbn [oled_after fold_left flushes]. fold (oled_after (oled_event d e) l).
  rewrite (IH _ Hl).
  destruct e as [| | | [] | | | | | | | | | | | | | | | | | |];
    try reflexivity; try discriminate He.
  set (d' := oled_event d (Display Ddisplay)).
  destruct (flushes d' l) as [| s rest] eqn:E; [reflexivity |].
  change (last (buffer d' :: s :: rest)) with (last (s :: rest)).
  destruct (last (s :: rest)) eqn:El; [reflexivity |].
  apply last_None in El. discriminate El.
Qed.

(** X7.  [showTextRectangle] leaves the power of the panel as it is and
    puts its two lines, in the font chosen by [small], on the panel in
    place of everything that was there; so a second call undoes every
    trace of the first, and a repeated call changes nothing. *)
Theorem showTextRectangle_replaces_screen (d : Oled) (ln1 ln2 ln1' ln2' : string)
    (small small' : bool) (p : Point) :
  powered (oled_after d (calls (showTextRectangle ln1 ln2 small p))) = powered d /\
  panel (oled_after d (calls (showTextRectangle ln1 ln2 small p))) =
    (if small then two_small_lines ln1 ln2 else two_lines ln1 ln2) /\
  oled_after d
    (calls ((showTextRectangle ln1 ln2 small ;; showTextRectangle ln1' ln2' small') p)) =
    oled_after d (calls (showTextRectangle ln1' ln2' small' p)) /\
  oled_after (oled_after d (calls (showTextRectangle ln1 ln2 small p)))
    (calls (showTextRectangle ln1 ln2 small p)) =
    oled_after d (calls (showTextRectangle ln1 ln2 small p)).
Proof.
  rewrite (seq_run _ _ p tt p (rendering ln1 ln2 small) (Returns tt) p
             (rendering ln1' ln2' small'))
    by apply showTextRectangle_run.
  rewrite !showTextRectangle_run. cbn [calls].
  rewrite oled_after_app.
  destruct small, small'; repeat split; reflexivity.
Qed.

Lemma init_calls_display (cfg : Config) (b : Boot) (d : Oled) :
  oled_after d (init_calls cfg b) =
    {| powered := true; font := ArialMT_Plain_16;
       buffer := two_small_lines "Init" (String_hex (getChipId b));
       panel := two_small_lines "Init" (String_hex (getChipId b)) |} /\
  flushes d (init_calls cfg b) = [two_small_lines "Init" (String_hex (getChipId b))].
Proof.
  unfold init_calls, sgp_calls.
  destruct (hasTVOC cfg), (isConnected b), (measureTest b), (hasPM cfg),
    (hasCO2 cfg), (hasSHT cfg); split; reflexivity.
Qed.

(** X8.  Whatever the configuration, [displayData] included, and however
    [setup] ends, [setup] switches the panel on and leaves the banner
    ["Init"] over the chip id, in the small font, on it; it is the only
    screen [setup] sends. *)
Theorem setup_shows_banner (cfg : Config) (b : Boot) (p : Point) (d : Oled) :
  powered (oled_after d (calls (setup cfg b p))) = true /\
  visible (oled_after d (calls (setup cfg b p))) =
    two_small_lines "Init" (String_hex (getChipId b)) /\
  flushes d (calls (setup cfg b p)) =
    [two_small_lines "Init" (String_hex (getChipId b))].
Proof.
  rewrite setup_run. cbn [calls]. unfold setup_calls.
  rewrite oled_after_app, flushes_app.
  destruct (init_calls_display cfg b d) as [Hd Hf]. rewrite Hd, Hf.
  set (rest := if connectWIFI cfg then _ else _).
  assert (Hrest : existsb is_display rest = false).
  { unfold rest, join_calls, validate_calls, timeout_calls.
    destruct (connectWIFI cfg), (autoConnect b), (validateConnection b); reflexivity. }
  destruct (oled_after_no_display
              {| powered := true; font := ArialMT_Plain_16;
                 buffer := two_small_lines "Init" (String_hex (getChipId b));
                 panel := two_small_lines "Init" (String_hex (getChipId b)) |}
              rest Hrest) as [Hsame Hnone].
  rewrite Hsame, Hnone. repeat split; reflexivity.
Qed.

Lemma existsb_concat {A : Type} (g : Event -> bool) (f : A -> list Event)
    (l : list A) :
  (forall a, existsb g (f a) = false) ->
  existsb g (concat (map f l)) = false.
Proof.
  intros Hf. induction l as [| a l IH]; [reflexivity |].
  cbn [map concat]. rewrite existsb_app, Hf, IH. reflexivity.
Qed.

(** [loop] makes none of the calls of [setup]: it neither joins the
    network nor validates the server, neither initialises the display nor
    restarts the chip. *)
Lemma cycle_calls_no_setup (cfg : Config) (r : Readings) (p : Point) :
  existsb (fun e => is_autoConnect e || is_validateConnection e
                    || is_display_init e || is_restart e)
    (cycle_calls cfg r p) = false.
Proof.
  unfold cycle_calls, sensor_calls, send_calls, failure_log, pm_calls, co2_calls,
    sht_calls, tvoc_calls.
  destruct (displayData cfg), (hasTVOC cfg), (hasPM cfg), (hasCO2 cfg),
    (hasSHT cfg), (connectWIFI cfg), (writePoint r); reflexivity.
Qed.

Lemma loops_calls_without (g : Event -> bool) (cfg : Config)
    (sensors : nat -> Readings) (k n : nat) (p : Point) :
  (forall e, g e = true ->
     is_autoConnect e || is_validateConnection e || is_display_init e
       || is_restart e = true) ->
  existsb g (loops_calls cfg sensors k n p) = false.
Proof.
  intros Hg. unfold loops_calls. apply existsb_concat. intros i.
  eapply existsb_weaken; [exact Hg | apply cycle_calls_no_setup].
Qed.

(** X9.  With [displayData] false the panel is off and shows nothing after
    any number of calls of [loop()] from one on, whatever it showed before;
    in a whole execution, the banner of [setup] goes dark in the first
    cycle and nothing is seen again. *)
Theorem display_stays_dark (cfg : Config) (b : Boot) (sensors : nat -> Readings)
    (k n : nat) (p : Point) (d : Oled) :
  displayData cfg = false -> (0 < n)%nat ->
  powered (oled_after d (calls (loops cfg sensors k n p))) = false /\
  visible (oled_after d (calls (loops cfg sensors k n p))) = [] /\
  (outcome (sketch cfg b sensors n) = Returns tt ->
   visible (oled_after d (calls (sketch cfg b sensors n))) = []).
Proof.
  intros Hoff Hn.
  assert (Hdark : forall k0 p0 d0,
             powered (oled_after d0 (loops_calls cfg sensors k0 n p0)) = false).
  { intros k0 p0 d0. destruct n as [| n]; [lia |].
    unfold loops_calls. cbn [seq map concat].
    fold (loops_calls cfg sensors (S k0) n p0).
    unfold cycle_calls at 1. rewrite Hoff. cbn [app oled_after fold_left].
    fold (oled_after (oled_event d0 (Display DdisplayOff))
            ((sensor_calls cfg (sensors k0)
                ++ send_calls cfg (sensors k0) (cycle_point cfg (sensors k0) p0))
               ++ loops_calls cfg sensors (S k0) n p0)).
    apply powered_stays_off; [reflexivity |].
    rewrite existsb_app, loops_calls_without
      by (intros e He; rewrite He, ?orb_true_r; reflexivity).
    pose proof (cycle_calls_no_setup cfg (sensors k0) p0) as Hc.
    unfold cycle_calls in Hc. rewrite existsb_app in Hc.
    apply orb_false_iff in Hc as [_ Hc].
    assert (Hi : existsb is_display_init
                   (sensor_calls cfg (sensors k0)
                      ++ send_calls cfg (sensors k0) (cycle_point cfg (sensors k0) p0))
                 = false).
    { refine (existsb_weaken _ _ _ _ Hc).
      intros e He. rewrite He, ?orb_true_r. reflexivity. }
    rewrite Hi. reflexivity. }
  rewrite loops_run. cbn [calls].
  split; [apply Hdark |]. split; [unfold visible; rewrite Hdark; reflexivity |].
  intros Hret. rewrite sketch_run in Hret |- *.
  destruct (setup_outcome cfg b) as [[] | |]; try discriminate Hret.
  cbn [calls]. rewrite oled_after_app. unfold visible. rewrite Hdark. reflexivity.
Qed.

(** X10.  With [displayData] true a call of [loop()] leaves the power of
    the panel as it is, and on the panel the screen of the last active
    capability (TVOC, else temperature, else CO2, else particles), which is
    what one sees during the sleep of 48 s; with no capability active the
    panel keeps what it had. *)
Theorem last_screen_stays (cfg : Config) (r : Readings) (p : Point) (d : Oled) :
  displayData cfg = true ->
  powered (oled_after d (calls (loop cfg r p))) = powered d /\
  panel (oled_after d (calls (loop cfg r p))) =
    default (panel d) (last_screen cfg r) /\
  (powered d = true ->
   visible (oled_after d (calls (loop cfg r p))) =
     default (visible d) (last_screen cfg r)).
Proof.
  intros Hon.
  assert (Hinit : existsb is_display_init (calls (loop cfg r p)) = false).
  { rewrite loop_run. cbn [calls].
    refine (existsb_weaken _ _ _ _ (cycle_calls_no_setup cfg r p)).
    intros e He. rewrite He, ?orb_true_r. reflexivity. }
  assert (Hpow : powered (oled_after d (calls (loop cfg r p))) = powered d).
  { apply powered_kept. rewrite loop_run. cbn [calls].
    unfold cycle_calls, sensor_calls, send_calls, failure_log, pm_calls,
      co2_calls, sht_calls, tvoc_calls. rewrite Hon.
    destruct (hasTVOC cfg), (hasPM cfg), (hasCO2 cfg), (hasSHT cfg),
      (connectWIFI cfg), (writePoint r); reflexivity. }
  assert (Hpanel : panel (oled_after d (calls (loop cfg r p))) =
                     default (panel d) (last_screen cfg r)).
  { rewrite (panel_after d _ Hinit), flushes_cycle. f_equal.
    unfold pm_screens, co2_screens, sht_screens, tvoc_screens, last_screen.
    destruct (hasTVOC cfg), (hasSHT cfg), (hasCO2 cfg), (hasPM cfg); reflexivity. }
  split; [exact Hpow |]. split; [exact Hpanel |].
  intros Hd. unfold visible. rewrite Hpow, Hd, Hpanel. reflexivity.
Qed.

(** ** More on start-up *)

Lemma init_calls_plain (cfg : Config) (b : Boot) :
  existsb (fun e => is_autoConnect e || is_validateConnection e) (init_calls cfg b)
    = false /\
  total_delay (init_calls cfg b) = 0.
Proof.
  unfold init_calls, sgp_calls.
  destruct (hasTVOC cfg), (isConnected b), (measureTest b), (hasPM cfg),
    (hasCO2 cfg), (hasSHT cfg); split; reflexivity.
Qed.

Lemma setup_outcome_returns (cfg : Config) (b : Boot) :
  setup_outcome cfg b = Returns tt <->
  validateConnection b = true /\ (connectWIFI cfg = true -> autoConnect b = true).
Proof.
  unfold setup_outcome.
  destruct (connectWIFI cfg), (autoConnect b), (validateConnection b); cbn;
    intuition discriminate.
Qed.

(** X11.  [loop()] is reached exactly when the server was validated and
    the join, if the network is enabled, succeeded; with the network
    disabled the server must still be validated.  From then on nothing
    that a sensor or a write returns stops the execution: for every [n] it
    makes the calls of [setup] and of [n] cycles, never restarts, and has
    waited the 2 s of [setup] and [n] times the time of a cycle. *)
Theorem cycles_follow_setup (cfg : Config) (b : Boot) (sensors : nat -> Readings)
    (n : nat) :
  (outcome (sketch cfg b sensors n) = Returns tt <->
   validateConnection b = true /\ (connectWIFI cfg = true -> autoConnect b = true)) /\
  (outcome (sketch cfg b sensors n) = Returns tt ->
   calls (sketch cfg b sensors n) =
     setup_calls cfg b
       ++ concat (map (fun i => calls (loop cfg (sensors i) influxPoint)) (seq 0 n)) /\
   occurrences is_restart (calls (sketch cfg b sensors n)) = 0%nat /\
   total_delay (calls (sketch cfg b sensors n)) =
     2000 + Z.of_nat n *
              (3000 * active_capabilities cfg
               + (if connectWIFI cfg then 48000 else 0))).
Proof.
  rewrite sketch_run, <- setup_outcome_returns.
  destruct (setup_outcome cfg b) as [[] | |] eqn:Ho; cbn [outcome calls];
    (split; [intuition discriminate |]); intros Hret; try discriminate Hret.
  apply setup_outcome_returns in Ho as [Hvalid Hjoin].
  assert (Hsetup : setup_calls cfg b =
                     init_calls cfg b ++ (if connectWIFI cfg then join_calls b else [])
                       ++ validate_calls b).
  { unfold setup_calls.
    destruct (connectWIFI cfg); [rewrite Hjoin by reflexivity |]; reflexivity. }
  split; [| split].
  - f_equal. unfold loops_calls. f_equal. apply map_ext. intros i.
    rewrite loop_run. reflexivity.
  - rewrite occurrences_app, Hsetup, !occurrences_app.
    rewrite (init_calls_without is_restart)
      by (intros e He; rewrite He; reflexivity).
    rewrite (existsb_occurrences is_restart (loops_calls cfg sensors 0 n influxPoint))
      by (apply loops_calls_without; intros e He; rewrite He, ?orb_true_r; reflexivity).
    unfold validate_calls, join_calls. rewrite Hvalid.
    destruct (connectWIFI cfg); reflexivity.
  - rewrite total_delay_app, Hsetup, !total_delay_app.
    destruct (init_calls_plain cfg b) as [_ Hinit]. rewrite Hinit.
    unfold loops_calls.
    rewrite (total_delay_concat _
               (3000 * active_capabilities cfg
                + (if connectWIFI cfg then 48000 else 0)))
      by (intros i; apply cycle_calls_delay).
    rewrite length_seq. unfold validate_calls, join_calls. rewrite Hvalid.
    destruct (connectWIFI cfg); cbn [total_delay app]; lia.
Qed.

Lemma setup_calls_network (cfg : Config) (b : Boot) :
  occurrences is_autoConnect (setup_calls cfg b) = Nat.b2n (connectWIFI cfg) /\
  occurrences is_validateConnection (setup_calls cfg b) =
    (if connectWIFI cfg && negb (autoConnect b) then 0%nat else 1%nat).
Proof.
  unfold setup_calls. rewrite !occurrences_app.
  destruct (init_calls_plain cfg b) as [Hinit _].
  rewrite !(existsb_occurrences _ (init_calls cfg b))
    by (refine (existsb_weaken _ _ _ _ Hinit);
        intros e He; rewrite He, ?orb_true_r; reflexivity).
  unfold join_calls, validate_calls, timeout_calls.
  destruct (connectWIFI cfg), (autoConnect b), (validateConnection b);
    split; reflexivity.
Qed.

(** X12.  The network is joined and the server validated in [setup] only:
    however many calls of [loop()] follow, the execution has tried the join
    once if the network is enabled and never otherwise, and has validated
    the server once unless the join timed out.  No cycle reconnects. *)
Theorem network_is_set_up_once (cfg : Config) (b : Boot)
    (sensors : nat -> Readings) (n : nat) :
  occurrences is_autoConnect (calls (sketch cfg b sensors n)) =
    Nat.b2n (connectWIFI cfg) /\
  occurrences is_validateConnection (calls (sketch cfg b sensors n)) =
    (if connectWIFI cfg && negb (autoConnect b) then 0%nat else 1%nat).
Proof.
  destruct (setup_calls_network cfg b) as [Hjoin Hvalid].
  rewrite sketch_run.
  destruct (setup_outcome cfg b) as [[] | |]; cbn [calls];
    rewrite ?occurrences_app, ?Hjoin, ?Hvalid; try (split; reflexivity).
  rewrite !(existsb_occurrences _ (loops_calls cfg sensors 0 n influxPoint))
    by (apply loops_calls_without; intros e He; rewrite He, ?orb_true_r; reflexivity).
  split; lia.
Qed.

(** ** Fahrenheit *)

Lemma fahrenheit_whole_degrees :
  all_from
    (fun c =>
       let shown := ((float_of_int c + float_of_int 0) * float_of_int 9
                     / float_of_int 5 + float_of_int 32)%single in
       Q_between (- (1 # 100000)) (1 # 100000)
         (float_to_Q shown - fahrenheit_exact c)
       && (negb (c mod 5 =? 0) || Qeq_bool (float_to_Q shown) (fahrenheit_exact c)))
    (Z.to_nat 166) (-40) = true.
Proof. vm_compute. reflexivity. Qed.

(** X13.  With Fahrenheit display and no offset, a reading of a whole
    number [c] of degrees Celsius between -40 and 125 (the range of the
    sensor) is shown as [String] of a [float] within 1/100000 of
    [9c/5 + 32], and of exactly that value when [c] is a multiple of 5 (32
    for 0, 212 for 100): the three roundings of [actualTemp * 9 / 5 + 32]
    in binary32 do not show in two decimals. *)
Theorem fahrenheit_is_accurate (cfg : Config) (r : Readings) (p : Point)
    (d : Oled) (c : Z) :
  hasSHT cfg = true -> inF cfg = true -> tempOffsetC cfg = float_of_int 0 ->
  t (periodicFetchData r) = float_of_int c -> -40 <= c <= 125 ->
  exists shown : spec_float,
    In (two_lines (String_float shown)
          (String_float (rh (periodicFetchData r)) +:+ "%"))
       (flushes d (calls (loop cfg r p))) /\
    (- (1 # 100000) <= float_to_Q shown - fahrenheit_exact c <= 1 # 100000)%Q /\
    (c mod 5 = 0 -> (float_to_Q shown == fahrenheit_exact c)%Q).
Proof.
  intros Hsht Hf Hoff Ht Hc.
  exists ((float_of_int c + float_of_int 0) * float_of_int 9
          / float_of_int 5 + float_of_int 32)%single.
  split.
  - rewrite flushes_cycle. unfold sht_screens, sht_shown, temp_shown, actualTemp.
    rewrite Hsht, Hf, Hoff, Ht. cbn [fst snd].
    rewrite !in_app_iff. right. right. left. left. reflexivity.
  - pose proof (all_from_spec _ _ _ fahrenheit_whole_degrees c) as H.
    rewrite Z2Nat.id in H by lia. specialize (H ltac:(lia)). cbv zeta in H.
    apply andb_true_iff in H as [Hnear Hexact].
    unfold Q_between in Hnear. apply andb_true_iff in Hnear as [Hlo Hhi].
    apply Qle_bool_iff in Hlo, Hhi.
    split; [split; assumption |].
    intros Hmod. apply orb_true_iff in Hexact as [Hno | Hyes].
    + apply negb_true_iff, Z.eqb_neq in Hno. contradiction.
    + apply Qeq_bool_iff, Hyes.
Qed.
End Sketch.

(** ** Closed instances *)

Lemma PM_TO_AQI_US_interpolates_witness :
  PM_TO_AQI_US 40 = PM_TO_AQI_US_exact 40 /\
  0 <= PM_TO_AQI_US 11 < 50 /\
  PM_TO_AQI_US_double 500.5%double = 500 /\
  PM_TO_AQI_US 65535 = 500.
Proof.
  destruct PM_TO_AQI_US_interpolates
    as (Hexact & Hfirst & _ & _ & Hbeyond & Hclamp & _).
  split; [apply Hexact; unfold INT_MAX; lia |].
  split; [apply Hfirst; lia |].
  split; [apply Hbeyond; reflexivity | apply Hclamp; unfold INT_MAX; lia].
Defined.

Lemma co2_sentinel_is_shown_not_reported_witness :
  fields (point (loop blank blank shipped co2_error influxPoint)) !! "co2" = None /\
  flushes oled_on (calls (loop blank blank shipped co2_error influxPoint)) =
    [ two_lines "PM2" "40"; two_lines "CO2" "-1"; two_lines "" "%";
      two_lines "TVOC" "7" ].
Proof.
  destruct (co2_sentinel_is_shown_not_reported blank blank shipped co2_error
              influxPoint oled_on eq_refl) as (Hbad & _ & Hshown & _).
  split; [apply Hbad; cbn; lia | exact Hshown].
Defined.

Lemma point_is_cycle_scoped_witness :
  fields (point (loops blank blank shipped (fun _ => co2_error) 0 3 influxPoint))
    !! "co2" = None /\
  forall key v,
    fields (addFields [("pm2", IntField 7)]
              (clearFields (addFields [("co2", IntField 400)] (clearFields influxPoint))))
      !! key = Some v ->
    (key, v) ∈ [("pm2", IntField 7)].
Proof.
  destruct (point_is_cycle_scoped blank blank shipped (fun _ => co2_error) co2_error
              influxPoint [("co2", IntField 400)] [("pm2", IntField 7)] 0 2)
    as ((_ & Hafter) & _ & Hlast).
  split; [| exact Hafter].
  rewrite Hlast. reflexivity.
Defined.

Lemma end_to_end_pm_and_temperature_witness :
  PM_TO_AQI_US 40 = 111 /\
  flushes oled_on (calls (loop blank blank pm_and_sht scenario influxPoint)) =
    [two_lines "PM2" "40"; two_lines "" "%"] /\
  fields (point (loop blank blank pm_and_sht scenario influxPoint)) =
    {[ "pm2" := IntField 40; "aqi" := IntField 111;
       "temp" := FloatField (float_of_int 20);
       "rhum" := FloatField (float_of_int 45) ]}.
Proof.
  exact (end_to_end_pm_and_temperature blank blank pm_and_sht scenario influxPoint
           oled_on eq_refl eq_refl eq_refl eq_refl eq_refl eq_refl eq_refl eq_refl).
Defined.

Lemma join_timeout_restarts_witness :
  outcome (sketch blank blank blank shipped no_network (fun _ => co2_error) 5) = Restarts /\
  occurrences is_restart
    (calls (sketch blank blank blank shipped no_network (fun _ => co2_error) 5)) = 1%nat /\
  occurrences is_writePoint
    (calls (sketch blank blank blank shipped no_network (fun _ => co2_error) 5)) = 0%nat.
Proof.
  destruct (join_timeout_restarts blank blank blank shipped no_network
              (fun _ => co2_error) 5 eq_refl eq_refl) as (Ho & _ & Hr & Hw & _).
  exact (conj Ho (conj Hr Hw)).
Defined.

Lemma validation_failure_spins_witness :
  outcome (sketch blank blank blank shipped no_server (fun _ => co2_error) 5) = Spins /\
  occurrences is_sampling
    (calls (sketch blank blank blank shipped no_server (fun _ => co2_error) 5)) = 0%nat.
Proof.
  destruct (validation_failure_spins blank blank blank) as [Hspins _].
  destruct (Hspins shipped no_server (fun _ => co2_error) 5%nat (fun _ => eq_refl) eq_refl)
    as (Ho & _ & _ & Hs).
  exact (conj Ho Hs).
Defined.

Lemma write_failure_is_only_logged_witness :
  outcome (loop blank blank shipped co2_error influxPoint) = Returns tt /\
  existsb is_restart (calls (loop blank blank shipped co2_error influxPoint)) = false.
Proof.
  destruct (write_failure_is_only_logged blank blank shipped co2_error scenario
              influxPoint eq_refl eq_refl) as (Ho & _ & _ & _ & Hr & _).
  exact (conj Ho Hr).
Defined.

Lemma sleep_follows_reporting_witness :
  occurrences is_sleep (calls (loop blank blank shipped scenario influxPoint)) = 1%nat /\
  occurrences is_sleep (calls (loop blank blank offline scenario influxPoint)) = 0%nat.
Proof.
  destruct (sleep_follows_reporting blank blank shipped (fun _ => scenario) 0 1 influxPoint)
    as (_ & _ & Hon).
  destruct (sleep_follows_reporting blank blank offline (fun _ => scenario) 0 1 influxPoint)
    as (_ & _ & Hoff).
  destruct (Hon scenario) as [Hon' _]. destruct (Hoff scenario) as [_ Hoff'].
  split; [apply Hon'; reflexivity | apply Hoff'; reflexivity].
Defined.

Lemma display_off_shows_nothing_witness :
  visible (oled_after oled_on (calls (loop blank blank shipped scenario influxPoint))) = [].
Proof.
  destruct (display_off_shows_nothing blank blank shipped scenario influxPoint oled_on
              eq_refl) as (Hdark & _).
  apply (Hdark _ []); [symmetry; apply app_nil_r |].
  rewrite loop_run. discriminate.
Defined.

Lemma point_ignores_display_settings_witness :
  point (loop blank blank flipped co2_error influxPoint) =
    point (loop blank blank shipped co2_error influxPoint).
Proof.
  apply (point_ignores_display_settings blank blank shipped flipped co2_error influxPoint).
  repeat split.
Defined.

(** C9, as stated, fails for the render call of [setup]: with
    [displayData] false, as shipped, [setup] runs to its end with the panel
    on and the banner it rendered on it; nothing in [setup] reads the
    flag. *)
Lemma setup_banner_shows_with_displayData_false :
  displayData shipped = false /\
  outcome (setup blank shipped online influxPoint) = Returns tt /\
  powered (oled_after oled_on (calls (setup blank shipped online influxPoint))) = true /\
  visible (oled_after oled_on (calls (setup blank shipped online influxPoint))) =
    two_small_lines "Init" "" /\
  visible (oled_after oled_on (calls (setup blank shipped online influxPoint))) <> [].
Proof.
  repeat split; try reflexivity. vm_compute. discriminate.
Qed.

(** C8, as stated, fails: without network the cycle reads the CO2 sensor,
    shows the reading, waits 3 s and ends; it does not sleep the 48 s. *)
Lemma offline_cycle_does_not_sleep :
  calls (loop blank blank offline co2_error influxPoint) =
    GetCO2Raw :: rendering "CO2" "-1" false ++ [Delay 3000] /\
  ~ In (Delay 48000) (calls (loop blank blank offline co2_error influxPoint)).
Proof.
  split; [reflexivity |].
  cbn. intros H. repeat (destruct H as [H | H]; [discriminate H |]). exact H.
Qed.

(** ** More closed instances *)

Lemma PM_TO_AQI_US_monotone_witness :
  0 <= PM_TO_AQI_US 12 /\ PM_TO_AQI_US 12 <= PM_TO_AQI_US 40 /\
  PM_TO_AQI_US 40 <= 500.
Proof. apply (PM_TO_AQI_US_monotone 12 40); unfold INT_MAX; lia. Defined.

Lemma PM_TO_AQI_US_is_exact_witness :
  PM_TO_AQI_US (-1) = Z.quot (50 * -1) 12.
Proof.
  destruct (PM_TO_AQI_US_is_exact (-1)) as [_ Hneg]; [unfold INT_MAX; lia |].
  apply Hneg. lia.
Defined.

Lemma display_stays_dark_witness :
  visible (oled_after oled_on
             (calls (loops blank blank shipped (fun _ => scenario) 0 2 influxPoint))) = [].
Proof.
  destruct (display_stays_dark blank blank blank shipped online (fun _ => scenario)
              0 2 influxPoint oled_on eq_refl) as (_ & Hdark & _); [lia |].
  exact Hdark.
Defined.

Lemma last_screen_stays_witness :
  visible (oled_after oled_on (calls (loop blank blank flipped scenario influxPoint))) =
    two_lines "TVOC" "0".
Proof.
  destruct (last_screen_stays blank blank flipped scenario influxPoint oled_on eq_refl)
    as (_ & _ & Hseen).
  exact (Hseen eq_refl).
Defined.

Lemma cycles_follow_setup_witness :
  outcome (sketch blank blank blank shipped online (fun _ => co2_error) 3) = Returns tt /\
  total_delay (calls (sketch blank blank blank shipped online (fun _ => co2_error) 3))
    = 182000.
Proof.
  destruct (cycles_follow_setup blank blank blank shipped online (fun _ => co2_error) 3)
    as [[_ Hruns] Hthen].
  assert (Hret : outcome (sketch blank blank blank shipped online (fun _ => co2_error) 3)
                 = Returns tt)
    by (apply Hruns; split; reflexivity).
  destruct (Hthen Hret) as (_ & _ & Htime).
  exact (conj Hret Htime).
Defined.

Lemma fahrenheit_is_accurate_witness :
  exists shown : spec_float,
    In (two_lines (blank shown) (blank (float_of_int 45) +:+ "%"))
       (flushes oled_on (calls (loop blank blank pm_and_sht scenario influxPoint))) /\
    (- (1 # 100000) <= float_to_Q shown - fahrenheit_exact 20 <= 1 # 100000)%Q /\
    (20 mod 5 = 0 -> (float_to_Q shown == fahrenheit_exact 20)%Q).
Proof.
  apply (fahrenheit_is_accurate blank blank pm_and_sht scenario influxPoint oled_on 20);
    try reflexivity.
  lia.
Defined.
